(** * Buffett-style stock screener: a shallow embedding of [stock.py] and
    [test.py], and the properties of their specification.

    [stock.py] is the interactive variant: it reads every figure from the
    terminal.  [test.py] is the fetched variant: it reads a profile and two
    statement tables from a data provider, normalises them through a chain
    of fallbacks, and evaluates the same five criteria.

    Numbers are Python floats, that is IEEE 754 binary64 values: they are
    modelled by Rocq's primitive [float], so that NaN, the infinities and
    the signed zeros behave as they do in the program; the figures of the
    provider are taken to be floats too.  Window sizes are Python ints,
    modelled by [Z], a negative size included.  Exceptions are values: a
    function that may raise returns either the exception or its result.

    Outside the model: the parsing of the command line, the provider
    itself (it is a table of facts here, and never fails), and the two
    builtins [float] and [str.strip] on text, which are parameters of the
    interactive program. *)

From Stdlib Require Import ZArith Ascii String Floats Lia.
From stdpp Require Import base option list strings gmap pretty.

Local Open Scope string_scope.
Local Open Scope Z_scope.
Local Open Scope list_scope.

(** ** Python prelude: exceptions, results and the operators the code uses *)

Module Py.

(** The exceptions that the two programs can raise.  [ValueError] carries
    its message, which is what [print(..., e)] shows. *)
Inductive exn : Type :=
| ValueError (msg : string)
| ZeroDivisionError (msg : string)
| EOFError
| KeyError (key : string)
| TypeError (msg : string).

(** A computation that may raise: [inl e] is "raised [e]". *)
Definition result (A : Type) : Type := (exn + A)%type.

Definition ret {A} (x : A) : result A := inr x.
Definition raise {A} (e : exn) : result A := inl e.
Definition bind {A B} (m : result A) (k : A -> result B) : result B :=
  match m with
  | inl e => inl e
  | inr x => k x
  end.

(** [str(e)] *)
Definition str_exn (e : exn) : string :=
  match e with
  | ValueError msg => msg
  | ZeroDivisionError msg => msg
  | EOFError => "EOF when reading a line"
  | KeyError key => "'" +:+ key +:+ "'"
  | TypeError msg => msg
  end.

(** Truth value of a float: zero of either sign is false, NaN is true. *)
Definition truthy (x : float) : bool := negb (x =? 0)%float.

(** Truth value of [d.get(k)]: [None] is false. *)
Definition truthy_opt (o : option float) : bool :=
  match o with
  | Some x => truthy x
  | None => false
  end.

(** [a or b] on two optional numbers. *)
Definition py_or (a b : option float) : option float :=
  if truthy_opt a then a else b.

(** [x / y] on floats: raises on a zero divisor of either sign. *)
Definition truediv (x y : float) : result float :=
  if (y =? 0)%float then raise (ZeroDivisionError "float division by zero")
  else ret (x / y)%float.

(** [x > c] and [x < c] *)
Definition gt (x c : float) : bool := (c <? x)%float.
Definition lt (x c : float) : bool := (x <? c)%float.

(** [all(p(x) for x in l)] *)
Definition all {A} (p : A -> bool) (l : list A) : bool := forallb p l.

(** [len(l)] *)
Definition len {A} (l : list A) : Z := Z.of_nat (length l).

(** [l[:n]]: a negative [n] counts from the end. *)
Definition slice_to {A} (l : list A) (n : Z) : list A :=
  if 0 <=? n then take (Z.to_nat n) l
  else take (length l - Z.to_nat (- n))%nat l.

(** [[x] * n]: empty when [n] is not positive. *)
Definition repeat {A} (x : A) (n : Z) : list A := replicate (Z.to_nat n) x.

(** [s.split(sep)] for a one-character separator. *)
Fixpoint split (sep : ascii) (s : string) : list string :=
  match s with
  | EmptyString => [EmptyString]
  | String c s' =>
      if Ascii.eqb c sep then EmptyString :: split sep s'
      else match split sep s' with
           | w :: ws => String c w :: ws
           | [] => [String c EmptyString]
           end
  end.

(** The line feed of ["\n"]. *)
Definition LF : string := String "010"%char EmptyString.

End Py.

Import Py.

Declare Scope py_scope.
Delimit Scope py_scope with py.
Notation "'do' x <- m ; k" := (Py.bind m (fun x => k))
  (at level 10, x name, m at level 100, k at level 200) : py_scope.

(** ** [stock.py]: the interactive variant *)

Module Stock.

(** What the program writes: the prompt of an [input] call, or a line
    written by [print]. *)
Inductive event : Type :=
| Prompt (text : string)
| Print (text : string).

(** The terminal: the lines still to be read and what was written. *)
Record world : Type := World { stdin : list string; stdout : list event }.

(** A statement: it may raise, and it changes the terminal either way. *)
Definition IO (A : Type) : Type := world -> result A * world.

Definition io_ret {A} (x : A) : IO A := fun w => (inr x, w).
Definition io_raise {A} (e : exn) : IO A := fun w => (inl e, w).
Definition io_bind {A B} (m : IO A) (k : A -> IO B) : IO B :=
  fun w =>
    match m w with
    | (inl e, w') => (inl e, w')
    | (inr x, w') => k x w'
    end.

(** [try: body except ValueError: handler] *)
Definition try_except_ValueError {A} (body handler : IO A) : IO A :=
  fun w =>
    match body w with
    | (inl (ValueError _), w') => handler w'
    | r => r
    end.

(** [input(prompt)]: writes the prompt, reads one line; end of input
    raises [EOFError]. *)
Definition input (prompt : string) : IO string :=
  fun w =>
    let out := stdout w ++ [Prompt prompt] in
    match stdin w with
    | [] => (inl EOFError, World [] out)
    | line :: rest => (inr line, World rest out)
    end.

(** [print(text)] *)
Definition print (text : string) : IO unit :=
  fun w => (inr tt, World (stdin w) (stdout w ++ [Print text])).

Declare Scope io_scope.
Delimit Scope io_scope with io.
Notation "'do' x <- m ; k" := (io_bind m (fun x => k))
  (at level 10, x name, m at level 100, k at level 200) : io_scope.
Notation "'run' m ; k" := (io_bind m (fun _ => k))
  (at level 10, m at level 100, k at level 200) : io_scope.
Local Open Scope io_scope.

(** [for x in l: body x] *)
Fixpoint for_each {A} (l : list A) (body : A -> IO unit) : IO unit :=
  match l with
  | [] => io_ret tt
  | x :: l' => run body x ; for_each l' body
  end.

Definition retry_message : string := "輸入格式錯誤，請重新輸入。".
Definition scalar_message : string := "股價或淨值格式錯誤".

Definition list_prompt (prompt : string) (count : Z) : string :=
  prompt +:+ "（用逗號分隔，預期 " +:+ pretty count +:+ " 筆）: ".

Section Builtins.

(** Python's [float(s)] on a string: [None] stands for the [ValueError]
    it raises on text that is not a number. *)
Variable float_of_string : string -> option float.
(** Python's [s.strip()]. *)
Variable strip : string -> string.

Definition float_ (s : string) : IO float :=
  match float_of_string s with
  | Some x => io_ret x
  | None => io_raise (ValueError ("could not convert string to float: " +:+ s))
  end.

(** [[float(v.strip()) for v in values]]: the first failure raises. *)
Fixpoint float_each (values : list string) : IO (list float) :=
  match values with
  | [] => io_ret []
  | v :: vs =>
      do x <- float_ (strip v) ;
      do xs <- float_each vs ;
      io_ret (x :: xs)
  end.

(** The body of the [try] in [get_float_list] (lines 6-12). *)
Definition get_float_list_try (prompt : string) (count : Z) : IO (list float) :=
  do line <- input (list_prompt prompt count) ;
  let values := split ","%char line in
  do values <- float_each values ;
  if negb (len values =? count) then io_raise (ValueError "筆數不符")
  else io_ret values.

(** [while True: try: ... return values except ValueError: print(...)].
    A turn of the loop that does not leave it has read one line, so the
    loop is retried at most as many times as there are lines left:
    [turns] counts the retries allowed, [get_float_list] allows that many,
    and the case of no retry left is never reached
    ([get_float_list_loop_enough] below). *)
Fixpoint get_float_list_loop (turns : nat) (prompt : string) (count : Z) : IO (list float) :=
  fun w =>
    match get_float_list_try prompt count w with
    | (inl (ValueError _), w') =>
        match turns with
        | O => (inl EOFError, w')
        | S turns' => (run print retry_message ; get_float_list_loop turns' prompt count) w'
        end
    | r => r
    end.

Definition get_float_list (prompt : string) (count : Z) : IO (list float) :=
  fun w => get_float_list_loop (length (stdin w)) prompt count w.

(** The [conditions] dictionary of [main] (lines 44-50), in insertion
    order. *)
Definition conditions (eps_5y revenue_4q roe_4q gross_margin_5y : list float)
    (pb_ratio : float) : list (string * bool) :=
  [ ("1. 近5年 EPS > 1", all (fun eps => gt eps 1) eps_5y);
    ("2. 近4季每股營收 > 1.5元", all (fun r => gt r 1.5) revenue_4q);
    ("3. 股價淨值比 < 1.5", lt pb_ratio 1.5);
    ("4. 近4季 ROE > 5%", all (fun r => gt r 5) roe_4q);
    ("5. 近5年毛利率 > 10%", all (fun gm => gt gm 10) gross_margin_5y) ].

Definition mark (passed : bool) : string :=
  if passed then "✅ 通過" else "❌ 未通過".

Definition invest_line (stock_id : string) : string :=
  LF +:+ "📈 根據華倫巴菲特選股法，股票 " +:+ stock_id +:+ " 適合投資。".
Definition avoid_line (stock_id : string) : string :=
  LF +:+ "📉 股票 " +:+ stock_id +:+ " 不符合巴菲特選股條件，不建議投資。".

(** Lines 52-61 of [main]: the results block and the conclusion. *)
Definition report (stock_id : string) (conds : list (string * bool)) : IO unit :=
  run print (LF +:+ "=== 評估結果 ===") ;
  run for_each conds (fun '(desc, passed) => print (desc +:+ ": " +:+ mark passed)) ;
  if all id (conds.*2) then print (invest_line stock_id)
  else print (avoid_line stock_id).

(** The [try] of lines 33-38: both scalars are read once; the handler
    prints and makes [main] return, which [None] stands for. *)
Definition read_scalars : IO (option (float * float)) :=
  try_except_ValueError
    (do price <- (do s <- input "輸入當前股價: " ; float_ s) ;
     do book_value_per_share <- (do s <- input "輸入每股淨值: " ; float_ s) ;
     io_ret (Some (price, book_value_per_share)))
    (run print scalar_message ; io_ret None).

Definition main : IO unit :=
  do stock_id <- input "請輸入股票代碼: " ;
  do eps_5y <- get_float_list "輸入近5年 EPS" 5 ;
  do revenue_4q <- get_float_list "輸入近4季每股營收" 4 ;
  do roe_4q <- get_float_list "輸入近4季 ROE（%）" 4 ;
  do gross_margin_5y <- get_float_list "輸入近5年毛利率（%）" 5 ;
  do scalars <- read_scalars ;
  match scalars with
  | None => io_ret tt
  | Some (price, book_value_per_share) =>
      match truediv price book_value_per_share with
      | inl e => io_raise e
      | inr pb_ratio =>
          report stock_id
            (conditions eps_5y revenue_4q roe_4q gross_margin_5y pb_ratio)
      end
  end.

End Builtins.

End Stock.

(** ** [test.py]: the fetched variant *)

Module Screener.

Local Open Scope py_scope.

(** One record of [info['incomeStatementHistory']['incomeStatementHistory']]:
    [rec.get('netIncome', {}).get('raw')]. *)
Record income_statement : Type := IncomeStatement { netIncome_raw : option float }.

(** [ticker.info]: every field is what [info.get(key)] returns, [None]
    when the provider has no such key.  A missing history is the empty
    list. *)
Record profile : Type := Profile {
  regularMarketPrice : option float;
  bookValue : option float;
  sharesOutstanding : option float;
  incomeStatementHistory : list income_statement;
  trailingEps : option float;
  totalStockholderEquity : option float;
  trailingReturnOnEquity : option float;
  returnOnEquity : option float }.

(** What the provider knows of one ticker.  A statement table maps a row
    label of its index to the row, most recent period first. *)
Record ticker : Type := Ticker {
  info : profile;
  quarterly_financials : gmap string (list float);
  financials : gmap string (list float) }.

(** The values held by the [data] dictionary. *)
Inductive value : Type :=
| VNum (x : float)
| VList (l : list float).

(** The parsed command line. *)
Record args : Type := Args { stock_id : string; years_eps : Z; quarters_rev : Z }.

(** How a run ends: [sys.exit(code)], falling off the end being code 0,
    or an exception that nothing catches. *)
Inductive ending : Type :=
| Exit (code : Z)
| Uncaught (e : exn).

(** [[f(x) for x in l]] where [f] may raise. *)
Fixpoint map_result {A B} (f : A -> result B) (l : list A) : result (list B) :=
  match l with
  | [] => ret []
  | x :: l' => do y <- f x ; do ys <- map_result f l' ; ret (y :: ys)
  end.

(** [(x / y) * 100] *)
Definition percent (x y : float) : result float :=
  do q <- truediv x y ; ret (q * 100)%float.

(** *** 2. yearly EPS (lines 32-44) *)

(** The [for] loop of lines 35-38, [eps_list] being the list built so far. *)
Fixpoint eps_loop (shares : option float) (recs : list income_statement)
    (eps_list : list float) : result (list float) :=
  match recs with
  | [] => ret eps_list
  | rec :: recs' =>
      match netIncome_raw rec, shares with
      | Some ni, Some sh =>
          if truthy ni && truthy sh
          then do eps <- truediv ni sh ; eps_loop shares recs' (eps_list ++ [eps])
          else eps_loop shares recs' eps_list
      | _, _ => eps_loop shares recs' eps_list
      end
  end.

Definition eps_history (info : profile) (years_eps : Z) : result (list float) :=
  do eps_list <- eps_loop (sharesOutstanding info)
                   (slice_to (incomeStatementHistory info) years_eps) [] ;
  if len eps_list <? years_eps then
    match trailingEps info with
    | None => raise (ValueError "無法取得年度 EPS")
    | Some trailing => ret (repeat trailing years_eps)
    end
  else ret eps_list.

(** *** 3. quarterly revenue (lines 47-51) *)

Definition revenue_history (qf : gmap string (list float)) (quarters_rev : Z)
    : result (list float) :=
  let rev := match qf !! "Total Revenue" with
             | Some row => slice_to row quarters_rev
             | None => []
             end in
  if len rev <? quarters_rev then raise (ValueError "季度營收資料不足")
  else ret rev.

(** *** 4. quarterly ROE (lines 54-66) *)

(** Lines 54-60: the computed path; the empty list when it is not taken. *)
Definition roe_computed (info : profile) (qf : gmap string (list float))
    (quarters_rev : Z) : result (list float) :=
  match qf !! "Net Income", totalStockholderEquity info with
  | Some row, Some equity =>
      if truthy equity then
        let raw_ni := slice_to row quarters_rev in
        if len raw_ni =? quarters_rev
        then map_result (fun ni => percent ni equity) raw_ni
        else ret []
      else ret []
  | _, _ => ret []
  end.

Definition roe_history (info : profile) (qf : gmap string (list float))
    (quarters_rev : Z) : result (list float) :=
  do roe <- roe_computed info qf quarters_rev ;
  if len roe <? quarters_rev then
    let fallback_roe := py_or (trailingReturnOnEquity info) (returnOnEquity info) in
    match fallback_roe with
    | None => raise (ValueError "無法取得季度 ROE 資料")
    | Some fallback_roe => ret (repeat fallback_roe quarters_rev)
    end
  else ret roe.

(** *** 5. yearly gross margin (lines 69-77) *)

Definition gross_margin_history (fin : gmap string (list float)) (years_eps : Z)
    : result (list float) :=
  match fin !! "Gross Profit", fin !! "Total Revenue" with
  | Some gp_row, Some tr_row =>
      let gp := slice_to gp_row years_eps in
      let tr := slice_to tr_row years_eps in
      if (len gp <? years_eps) || (len tr <? years_eps)
      then raise (ValueError "年度毛利率資料不足")
      else map_result (fun '(g, t) => percent g t) (zip gp tr)
  | _, _ => raise (ValueError "無法取得年度毛利率資料")
  end.

(** The dictionary that [fetch_financials] returns (lines 80-87). *)
Definition snapshot (eps_list rev roe gm : list float) (price bvps : float)
    : gmap string value :=
  list_to_map
    [ ("eps_5y", VList eps_list);
      ("rev_4q", VList rev);
      ("roe_4q", VList roe);
      ("gm_5y", VList gm);
      ("price", VNum price);
      ("bvps", VNum bvps) ].

Section Provider.

(** [yf.Ticker(symbol)]: the provider, taken as a table of facts. *)
Variable yf_Ticker : string -> ticker.

Definition fetch_financials (stock_id : string) (years_eps quarters_rev : Z)
    : result (gmap string value) :=
  let ticker := yf_Ticker (stock_id +:+ ".TW") in
  let info := info ticker in
  match regularMarketPrice info, bookValue info with
  | Some price, Some bvps =>
      do eps_list <- eps_history info years_eps ;
      let qf := quarterly_financials ticker in
      do rev <- revenue_history qf quarters_rev ;
      do roe <- roe_history info qf quarters_rev ;
      let fin := financials ticker in
      do gm <- gross_margin_history fin years_eps ;
      ret (snapshot eps_list rev roe gm price bvps)
  | _, _ => raise (ValueError "無法取得當前股價或每股淨值")
  end.

End Provider.

(** *** Analysis: statements over the one [data] dictionary *)

(** A statement that reads or updates the dictionary it is given: the
    result, and the dictionary as the statement leaves it. *)
Definition St (A : Type) : Type := gmap string value -> result A * gmap string value.

Definition st_ret {A} (x : A) : St A := fun d => (inr x, d).
Definition st_lift {A} (r : result A) : St A := fun d => (r, d).
Definition st_bind {A B} (m : St A) (k : A -> St B) : St B :=
  fun d =>
    match m d with
    | (inl e, d') => (inl e, d')
    | (inr x, d') => k x d'
    end.

(** [data[key]] *)
Definition getitem (key : string) : St value :=
  fun d =>
    match d !! key with
    | Some v => (inr v, d)
    | None => (inl (KeyError key), d)
    end.

(** [data[key] = v] *)
Definition setitem (key : string) (v : value) : St unit :=
  fun d => (inr tt, <[key := v]> d).

Declare Scope st_scope.
Delimit Scope st_scope with st.
Notation "'do' x <- m ; k" := (st_bind m (fun x => k))
  (at level 10, x name, m at level 100, k at level 200) : st_scope.
Notation "'run' m ; k" := (st_bind m (fun _ => k))
  (at level 10, m at level 100, k at level 200) : st_scope.

(** [a / b] on two values of the dictionary. *)
Definition value_truediv (a b : value) : result float :=
  match a, b with
  | VNum x, VNum y => truediv x y
  | _, _ => raise (TypeError "unsupported operand type(s) for /")
  end.

(** [all(x > c for x in v)] *)
Definition all_gt (c : float) (v : value) : result bool :=
  match v with
  | VList l => ret (all (fun x => gt x c) l)
  | VNum _ => raise (TypeError "'float' object is not iterable")
  end.

(** [v < c] *)
Definition value_lt (v : value) (c : float) : result bool :=
  match v with
  | VNum x => ret (lt x c)
  | VList _ => raise (TypeError "'<' not supported between instances of 'list' and 'float'")
  end.

Definition calculate_indicators : St unit :=
  (do price <- getitem "price" ;
   do bvps <- getitem "bvps" ;
   do pb_ratio <- st_lift (value_truediv price bvps) ;
   setitem "pb_ratio" (VNum pb_ratio))%st.

Definition apply_buffett_criteria : St (list (string * bool)) :=
  (do eps <- getitem "eps_5y" ;
   do c1 <- st_lift (all_gt 1 eps) ;
   do rev <- getitem "rev_4q" ;
   do c2 <- st_lift (all_gt 1.5 rev) ;
   do pb <- getitem "pb_ratio" ;
   do c3 <- st_lift (value_lt pb 1.5) ;
   do roe <- getitem "roe_4q" ;
   do c4 <- st_lift (all_gt 5 roe) ;
   do gm <- getitem "gm_5y" ;
   do c5 <- st_lift (all_gt 10 gm) ;
   st_ret [ ("近5年 EPS > 1", c1);
            ("近4季每股營收 > 1.5", c2);
            ("股價淨值比 < 1.5", c3);
            ("近4季 ROE > 5%", c4);
            ("近5年毛利率 > 10%", c5) ])%st.

(** *** Output *)

Definition mark (ok : bool) : string := if ok then "✅ 通過" else "❌ 未通過".

Definition invest_line : string := LF +:+ "📈 可投資".
Definition avoid_line : string := LF +:+ "📉 不建議投資".

(** The lines that [display_results] prints. *)
Definition display_results (stock_id : string) (criteria_results : list (string * bool))
    : list string :=
  [LF +:+ "=== " +:+ stock_id +:+ " 篩選結果 ==="]
  ++ map (fun '(desc, ok) => desc +:+ ": " +:+ mark ok) criteria_results
  ++ [if all id (criteria_results.*2) then invest_line else avoid_line].

Section Main.

Variable yf_Ticker : string -> ticker.

(** [main], from the parsed arguments: the lines printed and how the
    run ends. *)
Definition main (a : args) : list string * ending :=
  match fetch_financials yf_Ticker (stock_id a) (years_eps a) (quarters_rev a) with
  | inl e => (["資料擷取或處理失敗： " +:+ str_exn e], Exit 1)
  | inr data =>
      match (run calculate_indicators ; apply_buffett_criteria)%st data with
      | (inl e, _) => ([], Uncaught e)
      | (inr crit, _) => (display_results (stock_id a) crit, Exit 0)
      end
  end.

End Main.

End Screener.

(** ** Notions used by the properties *)

Module Spec.

Import Screener.

(** The five conditions of the checklist on the figures themselves. *)
Definition criteria_hold (eps rev roe gm : list float) (pb : float) : Prop :=
  Forall (fun x => gt x 1 = true) eps
  /\ Forall (fun x => gt x 1.5 = true) rev
  /\ lt pb 1.5 = true
  /\ Forall (fun x => gt x 5 = true) roe
  /\ Forall (fun x => gt x 10 = true) gm.

(** The [data] dictionary once [calculate_indicators] has stored a
    price-to-book ratio in it. *)
Definition derived (eps rev roe gm : list float) (price bvps pb : float)
    : gmap string value :=
  <["pb_ratio" := VNum pb]> (snapshot eps rev roe gm price bvps).

(** A statement that leaves the dictionary as it found it, whatever it
    returns or raises. *)
Definition read_only {A} (m : St A) : Prop :=
  forall d, (m d).2 = d.

(** Running a statement twice in a row, keeping both results. *)
Definition twice {A} (m : St A) : St (A * A) :=
  st_bind m (fun r1 => st_bind m (fun r2 => st_ret (r1, r2))).

(** The profile that the fetch of [stock_id] reads. *)
Definition profile_of (yf_Ticker : string -> ticker) (stock_id : string) : profile :=
  info (yf_Ticker (stock_id +:+ ".TW")).

(** The EPS of one record when the loop keeps it: both the net income
    and the shares are present and non-zero. *)
Definition eps_of (shares : option float) (rec : income_statement) : option float :=
  match netIncome_raw rec, shares with
  | Some ni, Some sh => if truthy ni && truthy sh then Some (ni / sh)%float else None
  | _, _ => None
  end.

(** A figure that is zero or missing. *)
Definition zero_or_missing (o : option float) : Prop :=
  o = None \/ exists x, o = Some x /\ (x =? 0)%float = true.

(** The computed ROE path is taken and accepted: there is a quarterly
    "Net Income" row, the equity is present and non-zero, and the row cut
    to the window has exactly the length of the window. *)
Definition roe_path_accepted (info : profile) (qf : gmap string (list float))
    (quarters_rev : Z) : bool :=
  match qf !! "Net Income", totalStockholderEquity info with
  | Some row, Some equity =>
      truthy equity && (len (slice_to row quarters_rev) =? quarters_rev)
  | _, _ => false
  end.

(** The ROE of each quarter of the computed path. *)
Definition roe_values (info : profile) (qf : gmap string (list float))
    (quarters_rev : Z) : list float :=
  match qf !! "Net Income", totalStockholderEquity info with
  | Some row, Some equity =>
      map (fun ni => (ni / equity * 100)%float) (slice_to row quarters_rev)
  | _, _ => []
  end.

(** The messages of the errors that [fetch_financials] raises itself, in
    the order of the stages. *)
Definition fetch_messages : list string :=
  [ "無法取得當前股價或每股淨值"; "無法取得年度 EPS"; "季度營收資料不足";
    "無法取得季度 ROE 資料"; "年度毛利率資料不足"; "無法取得年度毛利率資料" ].

(** The quarterly revenue that the fetch reads, cut to the window. *)
Definition revenue_read (qf : gmap string (list float)) (quarters_rev : Z) : list float :=
  match qf !! "Total Revenue" with
  | Some row => slice_to row quarters_rev
  | None => []
  end.

(** *** Lines typed at a list prompt *)

Section Lines.

Variable float_of_string : string -> option float.
Variable strip : string -> string.

(** Some token of the line fails float parsing. *)
Definition malformed (line : string) : Prop :=
  Exists (fun v => float_of_string (strip v) = None) (split "," line).

(** Every token of the line parses, to these values in this order. *)
Definition parses_to (line : string) (values : list float) : Prop :=
  Forall2 (fun v x => float_of_string (strip v) = Some x) (split "," line) values.

(** A line that is malformed or has more or fewer values than expected. *)
Definition rejected (count : Z) (line : string) : Prop :=
  malformed line \/ len (split "," line) <> count.

(** A line of [count] values that all parse. *)
Definition valid (count : Z) (line : string) (values : list float) : Prop :=
  parses_to line values /\ len values = count.

End Lines.

(** What the terminal shows for the lines that were rejected: for each
    of them the prompt, then the error message. *)
Definition retries (prompt : string) (count : Z) (bad : list string) : list Stock.event :=
  flat_map (fun _ => [ Stock.Prompt (Stock.list_prompt prompt count);
                       Stock.Print Stock.retry_message ]) bad.

(** What the terminal shows for one list field: the rejected lines, then
    the prompt that the valid line answers. *)
Definition list_rounds (prompt : string) (count : Z) (bad : list string)
    : list Stock.event :=
  retries prompt count bad ++ [Stock.Prompt (Stock.list_prompt prompt count)].

(** What the terminal shows when [main] has read the stock code and the
    four lists, [b1] to [b4] being the lines rejected on the way. *)
Definition lists_output (b1 b2 b3 b4 : list string) : list Stock.event :=
  [Stock.Prompt "請輸入股票代碼: "]
  ++ list_rounds "輸入近5年 EPS" 5 b1
  ++ list_rounds "輸入近4季每股營收" 4 b2
  ++ list_rounds "輸入近4季 ROE（%）" 4 b3
  ++ list_rounds "輸入近5年毛利率（%）" 5 b4.

(** The float has sign [s] and is not NaN. *)
Definition has_sign (s : bool) (x : spec_float) : Prop :=
  match x with
  | S754_zero s' | S754_infinity s' | S754_finite s' _ _ => s' = s
  | S754_nan => False
  end.

End Spec.

Import Spec.


(** ** Sample inputs *)

Module Samples.

Import Screener.

(** *** Stand-ins for the two builtins on plain text

    On a decimal integer of at most eighteen digits with an optional
    minus sign, [float] returns the float of that integer, and on [inf]
    and [-inf] the two infinities; so does [float_of_decimal].  On blanks
    at both ends [strip] removes them, and so does [strip_blanks]. *)

Definition digit_value (c : ascii) : option Z :=
  let n := Z.of_N (N_of_ascii c) in
  if (48 <=? n) && (n <=? 57) then Some (n - 48) else None.

Fixpoint digits_value (s : string) (acc : Z) : option Z :=
  match s with
  | EmptyString => Some acc
  | String c s' =>
      match digit_value c with
      | Some v => digits_value s' (10 * acc + v)
      | None => None
      end
  end.

Definition natural_value (s : string) : option Z :=
  match s with
  | EmptyString => None
  | _ => if (String.length s <=? 18)%nat then digits_value s 0 else None
  end.

Definition float_of_natural (z : Z) : float := of_uint63 (Uint63.of_Z z).

Definition float_of_decimal (s : string) : option float :=
  if String.eqb s "inf" then Some infinity
  else if String.eqb s "-inf" then Some neg_infinity
  else match s with
       | String "-" s' =>
           option_map (fun z => (- float_of_natural z)%float) (natural_value s')
       | _ => option_map float_of_natural (natural_value s)
       end.

Fixpoint drop_blanks (l : list ascii) : list ascii :=
  match l with
  | " "%char :: l' => drop_blanks l'
  | _ => l
  end.

Definition strip_blanks (s : string) : string :=
  string_of_list_ascii
    (rev (drop_blanks (rev (drop_blanks (list_ascii_of_string s))))).

(** *** Provider facts *)

Local Open Scope float_scope.

(** A statement table with the given rows. *)
Definition table (rows : list (string * list float)) : gmap string (list float) :=
  list_to_map rows.

(** 12.3, as the nearest binary64 value. *)
Definition roe_12_3 : float := 0x1.899999999999ap+3.

(** Histories that pass their criteria. *)
Definition good_eps : list float := [2; 3; 2; 4; 5].
Definition good_rev : list float := [2; 3; 2; 3].
Definition good_roe : list float := [6; 7; 8; 6].
Definition good_gm : list float := [11; 12; 20; 15; 30].

(** Full history: five yearly incomes, four quarters, five years. *)
Definition full_ticker : ticker :=
  Ticker
    (Profile (Some 100) (Some 80) (Some 10)
       [ IncomeStatement (Some 50); IncomeStatement (Some 40);
         IncomeStatement (Some 30); IncomeStatement (Some 20);
         IncomeStatement (Some 60) ]
       (Some 4.5) (Some 200) None (Some roe_12_3))
    (table [ ("Total Revenue", [2; 3; 2; 3]); ("Net Income", [20; 30; 20; 40]) ])
    (table [ ("Gross Profit", [2; 2; 3; 2; 2]); ("Total Revenue", [10; 10; 10; 10; 10]) ]).

(** The same ticker with other profile facts or other tables. *)
Definition with_info (p : profile) (t : ticker) : ticker :=
  Ticker p (quarterly_financials t) (financials t).
Definition with_quarterly (qf : gmap string (list float)) (t : ticker) : ticker :=
  Ticker (info t) qf (financials t).
Definition with_yearly (fin : gmap string (list float)) (t : ticker) : ticker :=
  Ticker (info t) (quarterly_financials t) fin.

(** Two yearly incomes only, and a trailing EPS of 4.5. *)
Definition short_history_ticker : ticker :=
  with_info
    (Profile (Some 100) (Some 80) (Some 10)
       [ IncomeStatement (Some 50); IncomeStatement (Some 40) ]
       (Some 4.5) (Some 200) None (Some roe_12_3))
    full_ticker.

(** Five yearly incomes, the third of them zero. *)
Definition zero_income_ticker : ticker :=
  with_info
    (Profile (Some 100) (Some 80) (Some 10)
       [ IncomeStatement (Some 50); IncomeStatement (Some 40);
         IncomeStatement (Some 0); IncomeStatement (Some 20);
         IncomeStatement (Some 60) ]
       (Some 4.5) (Some 200) None (Some roe_12_3))
    full_ticker.

(** No quarterly "Net Income" row, and a fallback ROE of 12.3. *)
Definition fallback_roe_ticker : ticker :=
  with_quarterly (table [ ("Total Revenue", [2; 3; 2; 3]) ]) full_ticker.

(** No quarterly "Net Income" row and no ROE figure in the profile. *)
Definition no_roe_ticker : ticker :=
  with_info
    (Profile (Some 100) (Some 80) (Some 10)
       (incomeStatementHistory (info full_ticker)) (Some 4.5) None None None)
    fallback_roe_ticker.

(** No quarterly "Net Income" row, a trailing ROE of zero and no other
    ROE figure in the profile. *)
Definition zero_trailing_roe_ticker : ticker :=
  with_info
    (Profile (Some 100) (Some 80) (Some 10)
       (incomeStatementHistory (info full_ticker)) (Some 4.5) None (Some 0) None)
    fallback_roe_ticker.

(** Three quarters of revenue only. *)
Definition short_revenue_ticker : ticker :=
  with_quarterly
    (table [ ("Total Revenue", [2; 3; 2]); ("Net Income", [20; 30; 20; 40]) ])
    full_ticker.

(** No yearly "Gross Profit" row. *)
Definition no_gross_profit_ticker : ticker :=
  with_yearly (table [ ("Total Revenue", [10; 10; 10; 10; 10]) ]) full_ticker.

(** Four years of gross profit only. *)
Definition short_gross_profit_ticker : ticker :=
  with_yearly
    (table [ ("Gross Profit", [2; 2; 3; 2]); ("Total Revenue", [10; 10; 10; 10; 10]) ])
    full_ticker.

(** A book value per share of zero. *)
Definition zero_book_ticker : ticker :=
  with_info
    (Profile (Some 100) (Some 0) (Some 10)
       (incomeStatementHistory (info full_ticker)) (Some 4.5) (Some 200) None
       (Some roe_12_3))
    full_ticker.

(** A negative book value per share. *)
Definition negative_book_ticker : ticker :=
  with_info
    (Profile (Some 100) (Some (-50)) (Some 10)
       (incomeStatementHistory (info full_ticker)) (Some 4.5) (Some 200) None
       (Some roe_12_3))
    full_ticker.

(** An infinite price over an infinite negative book value. *)
Definition infinite_ticker : ticker :=
  with_info
    (Profile (Some infinity) (Some neg_infinity) (Some 10)
       (incomeStatementHistory (info full_ticker)) (Some 4.5) (Some 200) None
       (Some roe_12_3))
    full_ticker.

(** A yearly total revenue of zero, three years back. *)
Definition zero_revenue_ticker : ticker :=
  with_yearly
    (table [ ("Gross Profit", [2; 2; 3; 2; 2]); ("Total Revenue", [10; 10; 0; 10; 10]) ])
    full_ticker.

(** What the user types in a run of the interactive program, the lists
    first time right, then the price and the book value. *)
Definition answers (price book : string) : list string :=
  [ "2330"; "2,3,2,4,5"; "2,3,2,3"; "6,7,8,6"; "11,12,20,15,30"; price; book ]%string.

(** The provider that knows one ticker only. *)
Definition only (t : ticker) : string -> ticker := fun _ => t.

End Samples.

(** ** Notions used by the further properties *)

Module Shape.

Import Screener.

(** The keys that [apply_buffett_criteria] reads, in the order in which it
    reads them. *)
Definition criteria_keys : list string :=
  [ "eps_5y"; "rev_4q"; "pb_ratio"; "roe_4q"; "gm_5y" ].

(** A dictionary on which the criteria can be evaluated: a list under each
    history key and a number under ["pb_ratio"]. *)
Definition analysable (d : gmap string value) : Prop :=
  exists eps rev pb roe gm,
    d !! "eps_5y" = Some (VList eps)
    /\ d !! "rev_4q" = Some (VList rev)
    /\ d !! "pb_ratio" = Some (VNum pb)
    /\ d !! "roe_4q" = Some (VList roe)
    /\ d !! "gm_5y" = Some (VList gm).

(** What the evaluation makes of the five values it looks up, [None]
    standing for a missing key. *)
Definition found (key : string) (o : option value) : result value :=
  match o with
  | Some v => inr v
  | None => inl (KeyError key)
  end.

Definition criteria_of (eps rev pb roe gm : option value) : result (list (string * bool)) :=
  (do eps <- found "eps_5y" eps ;
   do c1 <- all_gt 1 eps ;
   do rev <- found "rev_4q" rev ;
   do c2 <- all_gt 1.5 rev ;
   do pb <- found "pb_ratio" pb ;
   do c3 <- value_lt pb 1.5 ;
   do roe <- found "roe_4q" roe ;
   do c4 <- all_gt 5 roe ;
   do gm <- found "gm_5y" gm ;
   do c5 <- all_gt 10 gm ;
   inr [ ("近5年 EPS > 1", c1); ("近4季每股營收 > 1.5", c2); ("股價淨值比 < 1.5", c3);
         ("近4季 ROE > 5%", c4); ("近5年毛利率 > 10%", c5) ])%py.

(** The errors that [fetch_financials] can raise. *)
Definition fetch_error (e : exn) : Prop :=
  (exists msg, e = ValueError msg /\ In msg Spec.fetch_messages)
  \/ e = ZeroDivisionError "float division by zero".

(** The ways in which a run of the interactive [main] can end. *)
Definition interactive_ending (r : result unit) : Prop :=
  r = inr tt \/ r = inl EOFError
  \/ r = inl (ZeroDivisionError "float division by zero").

End Shape.

Import Shape.

(** ** Facts of binary64 arithmetic

    Division of a positive by a negative float gives a float below 1.5,
    unless both are infinite.  The argument follows the sign through the
    rounding of the quotient. *)

Section RoundingSign.

Variables prec emax : Z.

Lemma shr_1_nonneg mrs : 0 <= shr_m mrs -> 0 <= shr_m (shr_1 mrs).
Proof.
  destruct mrs as [m r s]. destruct m as [|[p|p|]|[p|p|]]; simpl; lia.
Qed.

Lemma iter_pos_invariant {A} (f : A -> A) (P : A -> Prop) :
  (forall x, P x -> P (f x)) -> forall n x, P x -> P (SpecFloat.iter_pos f n x).
Proof.
  intros Hf. induction n as [n IH|n IH|]; intros x Hx; simpl; auto.
Qed.

Lemma shr_nonneg mrs e n : 0 <= shr_m mrs -> 0 <= shr_m (shr mrs e n).1.
Proof.
  intros H. destruct n; simpl; try assumption.
  apply (iter_pos_invariant shr_1 (fun r => 0 <= shr_m r));
    [apply shr_1_nonneg | assumption].
Qed.

Lemma shr_fexp_nonneg m e l : 0 <= m -> 0 <= shr_m (shr_fexp prec emax m e l).1.
Proof.
  intros H. unfold shr_fexp. apply shr_nonneg.
  destruct l as [|[]]; simpl; assumption.
Qed.

Lemma round_nearest_even_nonneg m l : 0 <= m -> 0 <= round_nearest_even m l.
Proof.
  intros H. destruct l as [|[]]; simpl; try lia.
  destruct (Z.even m); lia.
Qed.

Lemma binary_round_aux_sign s m e l :
  0 <= m -> has_sign s (binary_round_aux prec emax s m e l).
Proof.
  intros H. unfold binary_round_aux.
  pose proof (shr_fexp_nonneg m e l H) as H1.
  destruct (shr_fexp prec emax m e l) as [mrs' e'].
  simpl in H1.
  pose proof (shr_fexp_nonneg _ e' loc_Exact
                (round_nearest_even_nonneg _ (loc_of_shr_record mrs') H1)) as H2.
  destruct (shr_fexp prec emax _ e' loc_Exact) as [mrs'' e''].
  simpl in H2.
  destruct (shr_m mrs'') as [|p|p]; simpl; try reflexivity; try lia.
  destruct (e'' <=? emax - prec); reflexivity.
Qed.

Lemma SFdiv_core_binary_nonneg mx ex my ey :
  0 <= (SFdiv_core_binary prec emax (Zpos mx) ex (Zpos my) ey).1.1.
Proof.
  unfold SFdiv_core_binary.
  set (s := _ - _ - _).
  set (m' := match s with Zpos _ => _ | Z0 => _ | Zneg _ => _ end).
  assert (0 <= m') as Hm'.
  { subst m'. destruct s; try lia. apply Z.shiftl_nonneg. lia. }
  pose proof (Z.div_pos m' (Zpos my) Hm' ltac:(lia)) as Hq.
  unfold Z.div in Hq.
  destruct (Z.div_eucl m' (Zpos my)) as [q r]. simpl in *. exact Hq.
Qed.

Lemma SFdiv_finite_sign sx mx ex sy my ey :
  has_sign (xorb sx sy)
    (SFdiv prec emax (S754_finite sx mx ex) (S754_finite sy my ey)).
Proof.
  unfold SFdiv.
  pose proof (SFdiv_core_binary_nonneg mx ex my ey) as H.
  destruct (SFdiv_core_binary prec emax (Zpos mx) ex (Zpos my) ey) as [[mz ez] lz].
  simpl in H. apply binary_round_aux_sign. exact H.
Qed.

End RoundingSign.

Lemma positive_over_negative (price bvps : float) :
  (0 <? price)%float = true ->
  (bvps <? 0)%float = true ->
  (price <? infinity)%float = true \/ (neg_infinity <? bvps)%float = true ->
  (bvps =? 0)%float = false /\ (price / bvps <? 1.5)%float = true.
Proof.
  rewrite !FloatAxioms.ltb_spec, FloatAxioms.eqb_spec, FloatAxioms.div_spec.
  change (Prim2SF 0) with (S754_zero false).
  change (Prim2SF infinity) with (S754_infinity false).
  change (Prim2SF neg_infinity) with (S754_infinity true).
  change (Prim2SF 1.5) with (S754_finite false 6755399441055744 (-52)).
  unfold SF64div.
  destruct (Prim2SF price) as [sx|sx| |sx mx ex]; try discriminate;
    destruct (Prim2SF bvps) as [sy|sy| |sy my ey]; try discriminate.
  all: try (destruct sx; discriminate).
  - destruct sx, sy; try discriminate. intros _ _ [H|H]; discriminate.
  - destruct sx, sy; try discriminate. intros _ _ _. split; reflexivity.
  - destruct sx, sy; try discriminate. intros _ _ _. split; reflexivity.
  - destruct sx, sy; try discriminate. intros _ _ _. split; [reflexivity|].
    pose proof (SFdiv_finite_sign prec emax false mx ex true my ey) as H.
    destruct (SFdiv _ _ _ _) as [s|s| |s m e]; simpl in H;
      try contradiction; subst s; reflexivity.
Qed.
(** ** Properties of the criteria and of the verdict *)

Section Criteria.

Import Screener.

Lemma all_Forall {A} (p : A -> bool) (l : list A) :
  all p l = true <-> Forall (fun x => p x = true) l.
Proof.
  unfold all. induction l as [|x l IH]; simpl.
  - split; [constructor | reflexivity].
  - rewrite andb_true_iff, IH. split.
    + intros [Hx Hl]. constructor; assumption.
    + intros H. inversion H; subst. split; assumption.
Qed.

Lemma apply_derived eps rev roe gm price bvps pb :
  apply_buffett_criteria (derived eps rev roe gm price bvps pb)
  = (inr [ ("近5年 EPS > 1", all (fun x => gt x 1) eps);
           ("近4季每股營收 > 1.5", all (fun x => gt x 1.5) rev);
           ("股價淨值比 < 1.5", lt pb 1.5);
           ("近4季 ROE > 5%", all (fun x => gt x 5) roe);
           ("近5年毛利率 > 10%", all (fun x => gt x 10) gm) ],
     derived eps rev roe gm price bvps pb).
Proof. reflexivity. Qed.

(** The five booleans, as either program computes them, are all true
    exactly when the five conditions hold. *)
Lemma five_bools_hold eps rev roe gm pb :
  all id [ all (fun x => gt x 1) eps; all (fun x => gt x 1.5) rev; lt pb 1.5;
           all (fun x => gt x 5) roe; all (fun x => gt x 10) gm ] = true
  <-> criteria_hold eps rev roe gm pb.
Proof.
  unfold criteria_hold, all at 1. simpl forallb. unfold id.
  rewrite !andb_true_iff, !all_Forall. tauto.
Qed.

(** A line chosen by a boolean is the first one exactly when the boolean
    is true, provided that the two lines differ. *)
Lemma chosen_line {A} (b : bool) (P : Prop) (yes no : A) :
  yes <> no -> (b = true <-> P) ->
  (Some (if b then yes else no) = Some yes <-> P)
  /\ (Some (if b then yes else no) = Some no <-> ~ P).
Proof.
  intros Hne Hb. destruct b.
  - assert (P) as HP by (apply Hb; reflexivity).
    split; split; intros H; try reflexivity; try tauto.
    exfalso. apply Hne. congruence.
  - assert (~ P) as HP by (intros H; apply Hb in H; discriminate).
    split; split; intros H; try reflexivity; try tauto.
    exfalso. apply Hne. congruence.
Qed.

Lemma invest_not_avoid : Screener.invest_line <> Screener.avoid_line.
Proof. discriminate. Qed.

Lemma stock_invest_not_avoid stock_id :
  Stock.Print (Stock.invest_line stock_id) <> Stock.Print (Stock.avoid_line stock_id).
Proof. discriminate. Qed.

(** C1. For every snapshot with its price-to-book ratio, in both
    programs: the verdict line is the "recommended" one if and only if
    all five criteria pass (every EPS value > 1, every revenue value
    > 1.5, price-to-book < 1.5, every ROE value > 5, every gross-margin
    value > 10), and it is the "not recommended" one if and only if they
    do not all pass. *)
Theorem C1_verdict_iff_all_criteria :
  forall (stock_id : string) (eps rev roe gm : list float) (price bvps pb : float),
    (exists crit,
        apply_buffett_criteria (derived eps rev roe gm price bvps pb)
        = (inr crit, derived eps rev roe gm price bvps pb)
        /\ (last (display_results stock_id crit) = Some invest_line
            <-> criteria_hold eps rev roe gm pb)
        /\ (last (display_results stock_id crit) = Some avoid_line
            <-> ~ criteria_hold eps rev roe gm pb))
    /\ (forall w : Stock.world,
          exists w',
            Stock.report stock_id (Stock.conditions eps rev roe gm pb) w = (inr tt, w')
            /\ (last (Stock.stdout w') = Some (Stock.Print (Stock.invest_line stock_id))
                <-> criteria_hold eps rev roe gm pb)
            /\ (last (Stock.stdout w') = Some (Stock.Print (Stock.avoid_line stock_id))
                <-> ~ criteria_hold eps rev roe gm pb)).
Proof.
  intros stock_id eps rev roe gm price bvps pb.
  pose proof (five_bools_hold eps rev roe gm pb) as Hfive.
  split.
  - eexists. split; [apply apply_derived|].
    unfold display_results. rewrite !app_assoc, last_snoc. simpl fmap.
    apply chosen_line; [apply invest_not_avoid | exact Hfive].
  - intros [inp out].
    unfold Stock.report, Stock.conditions. simpl fmap.
    destruct (all id _) eqn:E.
    + eexists. split; [reflexivity|]. cbn [Stock.stdout].
      rewrite last_snoc.
      apply (chosen_line true); [apply stock_invest_not_avoid | exact Hfive].
    + eexists. split; [reflexivity|]. cbn [Stock.stdout].
      rewrite last_snoc.
      apply (chosen_line false); [apply stock_invest_not_avoid | exact Hfive].
Qed.

(** C2. The evaluator computes exactly five results, each a fixed strict
    comparison over one piece of the snapshot and nothing else: the first
    holds iff every EPS value is strictly greater than 1, the second iff
    every revenue value is strictly greater than 1.5, the third iff the
    price-to-book ratio is strictly less than 1.5, the fourth iff every
    ROE value is strictly greater than 5, the fifth iff every gross-margin
    value is strictly greater than 10; a value equal to its threshold
    fails.  The same holds of the [conditions] of the interactive
    program. *)
Theorem C2_five_strict_predicates :
  forall (eps rev roe gm : list float) (price bvps pb : float),
    (exists c1 c2 c3 c4 c5 : bool,
        apply_buffett_criteria (derived eps rev roe gm price bvps pb)
        = (inr [ ("近5年 EPS > 1", c1); ("近4季每股營收 > 1.5", c2);
                 ("股價淨值比 < 1.5", c3); ("近4季 ROE > 5%", c4);
                 ("近5年毛利率 > 10%", c5) ],
           derived eps rev roe gm price bvps pb)
        /\ Stock.conditions eps rev roe gm pb
           = [ ("1. 近5年 EPS > 1", c1); ("2. 近4季每股營收 > 1.5元", c2);
               ("3. 股價淨值比 < 1.5", c3); ("4. 近4季 ROE > 5%", c4);
               ("5. 近5年毛利率 > 10%", c5) ]
        /\ (c1 = true <-> Forall (fun x => (1 <? x)%float = true) eps)
        /\ (c2 = true <-> Forall (fun x => (1.5 <? x)%float = true) rev)
        /\ (c3 = true <-> (pb <? 1.5)%float = true)
        /\ (c4 = true <-> Forall (fun x => (5 <? x)%float = true) roe)
        /\ (c5 = true <-> Forall (fun x => (10 <? x)%float = true) gm))
    /\ (gt 1 1 = false /\ gt 1.5 1.5 = false /\ lt 1.5 1.5 = false
        /\ gt 5 5 = false /\ gt 10 10 = false).
Proof.
  intros eps rev roe gm price bvps pb. split.
  - exists (all (fun x => gt x 1) eps), (all (fun x => gt x 1.5) rev), (lt pb 1.5),
      (all (fun x => gt x 5) roe), (all (fun x => gt x 10) gm).
    split; [apply apply_derived|].
    split; [reflexivity|].
    rewrite !all_Forall. unfold gt, lt. tauto.
  - repeat split; vm_compute; reflexivity.
Qed.

(** *** Evaluation reads the dictionary and never writes it *)

Lemma read_only_ret {A} (x : A) : read_only (st_ret x).
Proof. intros d. reflexivity. Qed.

Lemma read_only_lift {A} (r : result A) : read_only (st_lift r).
Proof. intros d. reflexivity. Qed.

Lemma read_only_getitem key : read_only (getitem key).
Proof. intros d. unfold getitem. destruct (d !! key); reflexivity. Qed.

Lemma read_only_bind {A B} (m : St A) (k : A -> St B) :
  read_only m -> (forall x, read_only (k x)) -> read_only (st_bind m k).
Proof.
  intros Hm Hk d. unfold st_bind.
  specialize (Hm d). destruct (m d) as [[e|x] d']; simpl in *; subst d'.
  - reflexivity.
  - apply Hk.
Qed.

Lemma read_only_apply_buffett_criteria : read_only apply_buffett_criteria.
Proof.
  unfold apply_buffett_criteria.
  repeat first [ apply read_only_bind; [|intros ?]
               | apply read_only_getitem
               | apply read_only_lift
               | apply read_only_ret ].
Qed.

(** A read-only statement run twice in a row gives the same result
    twice. *)
Lemma read_only_twice {A} (m : St A) (d : gmap string value) :
  read_only m ->
  twice m d = (match (m d).1 with
               | inl e => inl e
               | inr r => inr (r, r)
               end, d).
Proof.
  intros Hm. unfold twice, st_bind.
  pose proof (Hm d) as Hd.
  destruct (m d) as [[e|r] d'] eqn:E; simpl in *; subst d'.
  - reflexivity.
  - rewrite E. reflexivity.
Qed.

(** By contrast [calculate_indicators] does write: it stores the ratio
    under a new key. *)
Lemma calculate_indicators_writes :
  (calculate_indicators (snapshot [] [] [] [] 3 2)).2 !! "pb_ratio" = Some (VNum 1.5)
  /\ snapshot [] [] [] [] 3 2 !! "pb_ratio" = None.
Proof. split; vm_compute; reflexivity. Qed.

(** C8. Criteria evaluation is deterministic and free of side effects:
    whatever dictionary it is given, it leaves that dictionary as it was,
    and evaluating twice in a row gives the same pass/fail results (or
    the same exception) both times. *)
Theorem C8_evaluation_repeatable_and_read_only :
  forall d : gmap string value,
    (apply_buffett_criteria d).2 = d
    /\ twice apply_buffett_criteria d
       = (match (apply_buffett_criteria d).1 with
          | inl e => inl e
          | inr r => inr (r, r)
          end, d).
Proof.
  intros d. split.
  - apply read_only_apply_buffett_criteria.
  - apply read_only_twice, read_only_apply_buffett_criteria.
Qed.

End Criteria.

(** ** The price-to-book ratio and its sign *)

Section PriceToBook.

Import Screener Samples.

(** [calculate_indicators] on a snapshot: the division, then the store. *)
Lemma calculate_snapshot eps rev roe gm price bvps :
  calculate_indicators (snapshot eps rev roe gm price bvps)
  = match truediv price bvps with
    | inl e => (inl e, snapshot eps rev roe gm price bvps)
    | inr pb => (inr tt, derived eps rev roe gm price bvps pb)
    end.
Proof.
  unfold calculate_indicators, st_bind, getitem.
  change (snapshot eps rev roe gm price bvps !! "price") with (Some (VNum price)).
  cbv beta iota.
  change (snapshot eps rev roe gm price bvps !! "bvps") with (Some (VNum bvps)).
  cbv beta iota. unfold st_lift, value_truediv.
  destruct (truediv price bvps); reflexivity.
Qed.

(** The analysis of [main] on a snapshot whose ratio is defined. *)
Lemma analysis_snapshot eps rev roe gm price bvps pb :
  truediv price bvps = inr pb ->
  (run calculate_indicators ; apply_buffett_criteria)%st
    (snapshot eps rev roe gm price bvps)
  = (inr [ ("近5年 EPS > 1", all (fun x => gt x 1) eps);
           ("近4季每股營收 > 1.5", all (fun x => gt x 1.5) rev);
           ("股價淨值比 < 1.5", lt pb 1.5);
           ("近4季 ROE > 5%", all (fun x => gt x 5) roe);
           ("近5年毛利率 > 10%", all (fun x => gt x 10) gm) ],
     derived eps rev roe gm price bvps pb).
Proof.
  intros H. unfold st_bind at 1. rewrite calculate_snapshot, H.
  apply apply_derived.
Qed.

(** C10, as the code has it.  For every snapshot whose book value per
    share is negative and whose price is positive, the two not both
    infinite: the ratio is computed without any exception, the
    price-to-book criterion passes in both programs, and when the four
    other criteria pass the verdict is "recommended".  Neither program
    rejects a negative price or book value: whatever their signs, when the
    book value is not zero the ratio is computed and the criteria are
    evaluated. *)
Theorem C10_negative_book_value_passes :
  (forall (stock_id : string) (eps rev roe gm : list float) (price bvps : float),
      (0 <? price)%float = true ->
      (bvps <? 0)%float = true ->
      (price <? infinity)%float = true \/ (neg_infinity <? bvps)%float = true ->
      exists (pb : float) (crit : list (string * bool)),
        truediv price bvps = inr pb
        /\ lt pb 1.5 = true
        /\ (run calculate_indicators ; apply_buffett_criteria)%st
             (snapshot eps rev roe gm price bvps)
           = (inr crit, derived eps rev roe gm price bvps pb)
        /\ crit !! 2%nat = Some ("股價淨值比 < 1.5", true)
        /\ Stock.conditions eps rev roe gm pb !! 2%nat = Some ("3. 股價淨值比 < 1.5", true)
        /\ (Forall (fun x => gt x 1 = true) eps ->
            Forall (fun x => gt x 1.5 = true) rev ->
            Forall (fun x => gt x 5 = true) roe ->
            Forall (fun x => gt x 10 = true) gm ->
            last (display_results stock_id crit) = Some invest_line
            /\ forall w, exists w',
                Stock.report stock_id (Stock.conditions eps rev roe gm pb) w = (inr tt, w')
                /\ last (Stock.stdout w') = Some (Stock.Print (Stock.invest_line stock_id))))
  /\ (forall (eps rev roe gm : list float) (price bvps : float),
        (bvps =? 0)%float = false ->
        truediv price bvps = inr (price / bvps)%float
        /\ exists crit,
            (run calculate_indicators ; apply_buffett_criteria)%st
              (snapshot eps rev roe gm price bvps)
            = (inr crit, derived eps rev roe gm price bvps (price / bvps)%float)).
Proof.
  split.
  - intros stock_id eps rev roe gm price bvps Hprice Hbvps Hfinite.
    destruct (positive_over_negative price bvps Hprice Hbvps Hfinite) as [Hnz Hlt].
    assert (truediv price bvps = inr (price / bvps)%float) as Hdiv
      by (unfold truediv; rewrite Hnz; reflexivity).
    eexists. eexists.
    split; [exact Hdiv|].
    split; [exact Hlt|].
    split; [apply analysis_snapshot, Hdiv|].
    unfold Stock.conditions, lt. rewrite Hlt.
    split; [reflexivity|]. split; [reflexivity|].
    intros Heps Hrev Hroe Hgm.
    assert (criteria_hold eps rev roe gm (price / bvps)) as Hall
      by (unfold criteria_hold, lt; auto).
    pose proof (proj2 (five_bools_hold eps rev roe gm (price / bvps)) Hall) as Hb.
    unfold lt in Hb. rewrite Hlt in Hb.
    split.
    + unfold display_results. rewrite !app_assoc, last_snoc. simpl fmap.
      rewrite Hb. reflexivity.
    + intros [inp out]. unfold Stock.report. simpl fmap. rewrite Hb.
      eexists. split; [reflexivity|]. cbn [Stock.stdout].
      apply last_snoc.
  - intros eps rev roe gm price bvps Hnz.
    assert (truediv price bvps = inr (price / bvps)%float) as Hdiv
      by (unfold truediv; rewrite Hnz; reflexivity).
    split; [exact Hdiv|].
    eexists. apply analysis_snapshot, Hdiv.
Qed.

(** At price 100 and book value -50, with histories that pass. *)
Lemma C10_negative_book_value_passes_witness :
  (0 <? 100)%float = true
  /\ (-50 <? 0)%float = true
  /\ (100 <? infinity)%float = true
  /\ exists pb,
      truediv 100 (-50) = inr pb
      /\ lt pb 1.5 = true
      /\ Stock.conditions good_eps good_rev good_roe good_gm pb !! 2%nat
         = Some ("3. 股價淨值比 < 1.5", true)
      /\ exists crit,
          (run calculate_indicators ; apply_buffett_criteria)%st
            (snapshot good_eps good_rev good_roe good_gm 100 (-50))
          = (inr crit, derived good_eps good_rev good_roe good_gm 100 (-50) pb)
          /\ crit !! 2%nat = Some ("股價淨值比 < 1.5", true)
          /\ last (display_results "2330" crit) = Some invest_line.
Proof.
  assert ((0 <? 100)%float = true) as H1 by (vm_compute; reflexivity).
  assert ((-50 <? 0)%float = true) as H2 by (vm_compute; reflexivity).
  assert ((100 <? infinity)%float = true) as H3 by (vm_compute; reflexivity).
  split; [exact H1|]. split; [exact H2|]. split; [exact H3|].
  destruct (proj1 C10_negative_book_value_passes "2330" good_eps good_rev good_roe
              good_gm 100%float (-50)%float H1 H2 (or_introl H3))
    as (pb & crit & Hdiv & Hlt & Hrun & Hc3 & Hs3 & Hverdict).
  exists pb. split; [exact Hdiv|]. split; [exact Hlt|]. split; [exact Hs3|].
  exists crit. split; [exact Hrun|]. split; [exact Hc3|].
  apply Hverdict; repeat constructor.
Defined.

(** Whole runs of the two programs with a book value per share of -50:
    neither rejects it, and both recommend the stock. *)
Lemma negative_book_value_is_recommended :
  last (main (only negative_book_ticker) (Args "2330" 5 4)).1 = Some invest_line
  /\ (main (only negative_book_ticker) (Args "2330" 5 4)).2 = Exit 0
  /\ (Stock.main float_of_decimal strip_blanks (Stock.World (answers "100" "-50") [])).1
     = inr tt
  /\ last (Stock.stdout
             (Stock.main float_of_decimal strip_blanks
                (Stock.World (answers "100" "-50") [])).2)
     = Some (Stock.Print (Stock.invest_line "2330")).
Proof. repeat split; vm_compute; reflexivity. Qed.

(** C10 as it was stated fails when both figures are infinite: the price
    is positive, the book value negative, the ratio is NaN, the
    price-to-book criterion fails and, the four other criteria passing,
    the verdict is "not recommended". *)
Lemma C10_infinite_price_and_book_value :
  (0 <? infinity)%float = true
  /\ (neg_infinity <? 0)%float = true
  /\ truediv infinity neg_infinity = inr nan
  /\ lt nan 1.5 = false
  /\ (run calculate_indicators ; apply_buffett_criteria)%st
       (snapshot good_eps good_rev good_roe good_gm infinity neg_infinity)
     = (inr [ ("近5年 EPS > 1", true); ("近4季每股營收 > 1.5", true);
              ("股價淨值比 < 1.5", false); ("近4季 ROE > 5%", true);
              ("近5年毛利率 > 10%", true) ],
        derived good_eps good_rev good_roe good_gm infinity neg_infinity nan)
  /\ Stock.conditions good_eps good_rev good_roe good_gm nan
     = [ ("1. 近5年 EPS > 1", true); ("2. 近4季每股營收 > 1.5元", true);
         ("3. 股價淨值比 < 1.5", false); ("4. 近4季 ROE > 5%", true);
         ("5. 近5年毛利率 > 10%", true) ]
  /\ last (main (only infinite_ticker) (Args "2330" 5 4)).1 = Some avoid_line
  /\ last (Stock.stdout
             (Stock.main float_of_decimal strip_blanks
                (Stock.World (answers "inf" "-inf") [])).2)
     = Some (Stock.Print (Stock.avoid_line "2330")).
Proof.
  repeat split; vm_compute; reflexivity.
Qed.

End PriceToBook.

(** ** Properties of the fetch and of its fallbacks *)

Section Fetch.

Import Screener.

(** *** Slices and repetitions *)

Lemma len_slice_to_le {A} (l : list A) (n : Z) :
  0 <= n -> len (slice_to l n) <= n.
Proof.
  intros Hn. unfold len, slice_to.
  destruct (Z.leb_spec 0 n); [|lia].
  rewrite length_take.
  pose proof (Nat.le_min_l (Z.to_nat n) (length l)). lia.
Qed.

Lemma len_slice_to_length {A} (l : list A) (n : Z) :
  len (slice_to l n) <= len l.
Proof.
  unfold len, slice_to.
  destruct (0 <=? n); rewrite length_take;
    match goal with |- context [Nat.min ?a ?b] => pose proof (Nat.le_min_r a b) end; lia.
Qed.

Lemma slice_to_lookup {A} (l : list A) (n : Z) (i : nat) (x : A) :
  Z.of_nat i < n -> l !! i = Some x -> slice_to l n !! i = Some x.
Proof.
  intros Hi Hx. unfold slice_to.
  destruct (Z.leb_spec 0 n); [|lia].
  rewrite lookup_take_lt by lia. exact Hx.
Qed.

(** *** The EPS loop *)

Lemma truediv_truthy (x y : float) :
  truthy y = true -> truediv x y = inr (x / y)%float.
Proof.
  unfold truthy, truediv. destruct (y =? 0)%float; [discriminate | reflexivity].
Qed.

(** The loop never raises: it appends the EPS of the records it keeps. *)
Lemma eps_loop_omap shares recs eps_list :
  eps_loop shares recs eps_list = inr (eps_list ++ omap (eps_of shares) recs).
Proof.
  revert eps_list. induction recs as [|rec recs IH]; intros eps_list; simpl.
  - rewrite app_nil_r. reflexivity.
  - unfold eps_of at 1.
    destruct (netIncome_raw rec) as [ni|], shares as [sh|]; try apply IH.
    destruct (truthy ni && truthy sh) eqn:E; [|apply IH].
    apply andb_true_iff in E as [_ Hsh].
    rewrite (truediv_truthy ni sh Hsh). simpl.
    rewrite IH, <- app_assoc. reflexivity.
Qed.

Lemma length_omap_le {A B} (f : A -> option B) (l : list A) :
  (length (omap f l) <= length l)%nat.
Proof.
  unfold omap. induction l as [|x l IH]; simpl; [lia|].
  destruct (f x); simpl; lia.
Qed.

Lemma length_omap_lt {A B} (f : A -> option B) (l : list A) (i : nat) (x : A) :
  l !! i = Some x -> f x = None -> (length (omap f l) < length l)%nat.
Proof.
  pose proof (length_omap_le f) as Hle. unfold omap in *.
  revert i. induction l as [|y l IH]; intros i Hi Hx; [discriminate|].
  destruct i as [|i]; simpl in *.
  - injection Hi as ->. rewrite Hx. specialize (Hle l). lia.
  - specialize (IH i Hi Hx). destruct (f y); simpl; lia.
Qed.

Lemma eps_of_skips shares rec :
  zero_or_missing (netIncome_raw rec) \/ zero_or_missing shares ->
  eps_of shares rec = None.
Proof.
  unfold eps_of, zero_or_missing, truthy.
  intros [[H|(x & H & Hx)]|[H|(x & H & Hx)]]; rewrite H;
    destruct (netIncome_raw rec), shares; try reflexivity; try discriminate.
  - rewrite Hx. reflexivity.
  - rewrite Hx. simpl. rewrite andb_false_r. reflexivity.
Qed.

(** *** What a successful fetch returns *)

Section WithProvider.

Variable yf_Ticker : string -> ticker.

Lemma fetch_financials_inr stock_id years_eps quarters_rev d :
  fetch_financials yf_Ticker stock_id years_eps quarters_rev = inr d ->
  let t := yf_Ticker (stock_id +:+ ".TW") in
  exists price bvps eps rev roe gm,
    regularMarketPrice (info t) = Some price
    /\ bookValue (info t) = Some bvps
    /\ eps_history (info t) years_eps = inr eps
    /\ revenue_history (quarterly_financials t) quarters_rev = inr rev
    /\ roe_history (info t) (quarterly_financials t) quarters_rev = inr roe
    /\ gross_margin_history (financials t) years_eps = inr gm
    /\ d = snapshot eps rev roe gm price bvps.
Proof.
  intros H t. subst t. unfold fetch_financials in H.
  set (t := yf_Ticker (stock_id +:+ ".TW")) in *.
  destruct (regularMarketPrice (info t)) as [price|]; [|discriminate].
  destruct (bookValue (info t)) as [bvps|]; [|discriminate].
  destruct (eps_history (info t) years_eps) as [e|eps]; [discriminate|].
  destruct (revenue_history _ quarters_rev) as [e|rev]; [discriminate|].
  destruct (roe_history _ _ quarters_rev) as [e|roe]; [discriminate|].
  destruct (gross_margin_history _ years_eps) as [e|gm]; [discriminate|].
  simpl in H. injection H as <-.
  exists price, bvps, eps, rev, roe, gm. repeat split; reflexivity.
Qed.

(** A stage that raises makes the whole fetch raise. *)
Lemma fetch_financials_eps_raises stock_id years_eps quarters_rev e :
  eps_history (info (yf_Ticker (stock_id +:+ ".TW"))) years_eps = inl e ->
  exists e', fetch_financials yf_Ticker stock_id years_eps quarters_rev = inl e'.
Proof.
  intros H. unfold fetch_financials.
  destruct (regularMarketPrice _); [|eexists; reflexivity].
  destruct (bookValue _); [|eexists; reflexivity].
  rewrite H. eexists; reflexivity.
Qed.

Lemma fetch_financials_eps stock_id years_eps quarters_rev d :
  fetch_financials yf_Ticker stock_id years_eps quarters_rev = inr d ->
  exists eps,
    eps_history (profile_of yf_Ticker stock_id) years_eps = inr eps
    /\ d !! "eps_5y" = Some (VList eps).
Proof.
  intros H. apply fetch_financials_inr in H.
  destruct H as (price & bvps & eps & rev & roe & gm & _ & _ & Heps & _ & _ & _ & ->).
  exists eps. split; [exact Heps | reflexivity].
Qed.

End WithProvider.

(** The EPS stage when the loop yields too few entries. *)
Lemma eps_history_fallback (p : profile) (years_eps : Z) (computed : list float) :
  eps_loop (sharesOutstanding p) (slice_to (incomeStatementHistory p) years_eps) []
  = inr computed ->
  len computed < years_eps ->
  eps_history p years_eps
  = match trailingEps p with
    | None => inl (ValueError "無法取得年度 EPS")
    | Some trailing => inr (Py.repeat trailing years_eps)
    end.
Proof.
  intros Hloop Hlen. unfold eps_history. rewrite Hloop. simpl.
  destruct (Z.ltb_spec (len computed) years_eps); [|lia].
  destruct (trailingEps p); reflexivity.
Qed.

(** A history shorter than the window yields too few entries. *)
Lemma short_history_too_few (p : profile) (years_eps : Z) :
  len (incomeStatementHistory p) < years_eps ->
  exists computed,
    eps_loop (sharesOutstanding p) (slice_to (incomeStatementHistory p) years_eps) []
    = inr computed
    /\ len computed < years_eps.
Proof.
  intros Hshort. eexists. split; [apply eps_loop_omap|].
  simpl.
  pose proof (length_omap_le (eps_of (sharesOutstanding p))
                (slice_to (incomeStatementHistory p) years_eps)) as H1.
  pose proof (len_slice_to_length (incomeStatementHistory p) years_eps) as H2.
  unfold len in *. lia.
Qed.

(** C3. In the fetched strategy, when the historical income-statement
    records yield fewer computed EPS entries than the requested window,
    the computed entries are discarded and the EPS history is the
    trailing EPS of the profile repeated over the whole window; the fetch
    fails with an error when that figure is absent too.  A history
    shorter than the window is such a case; with a trailing EPS of 4.5
    and a window of 5 the EPS history is [4.5, 4.5, 4.5, 4.5, 4.5]. *)
Theorem C3_eps_fallback_to_trailing :
  forall (yf_Ticker : string -> ticker) (stock_id : string) (quarters_rev : Z),
    let p := profile_of yf_Ticker stock_id in
    (forall (years_eps : Z) (computed : list float),
        eps_loop (sharesOutstanding p) (slice_to (incomeStatementHistory p) years_eps) []
        = inr computed ->
        len computed < years_eps ->
        (trailingEps p = None ->
         eps_history p years_eps = inl (ValueError "無法取得年度 EPS")
         /\ exists e, fetch_financials yf_Ticker stock_id years_eps quarters_rev = inl e)
        /\ (forall trailing, trailingEps p = Some trailing ->
            eps_history p years_eps = inr (Py.repeat trailing years_eps)
            /\ forall d,
                fetch_financials yf_Ticker stock_id years_eps quarters_rev = inr d ->
                d !! "eps_5y" = Some (VList (Py.repeat trailing years_eps))))
    /\ (forall years_eps : Z,
          len (incomeStatementHistory p) < years_eps ->
          exists computed,
            eps_loop (sharesOutstanding p)
              (slice_to (incomeStatementHistory p) years_eps) [] = inr computed
            /\ len computed < years_eps)
    /\ (len (incomeStatementHistory p) < 5 ->
        trailingEps p = Some 4.5%float ->
        forall d,
          fetch_financials yf_Ticker stock_id 5 quarters_rev = inr d ->
          d !! "eps_5y" = Some (VList [4.5; 4.5; 4.5; 4.5; 4.5]%float)).
Proof.
  intros yf_Ticker stock_id quarters_rev p.
  assert (forall years_eps computed,
             eps_loop (sharesOutstanding p)
               (slice_to (incomeStatementHistory p) years_eps) [] = inr computed ->
             len computed < years_eps ->
             forall trailing, trailingEps p = Some trailing ->
             forall d,
               fetch_financials yf_Ticker stock_id years_eps quarters_rev = inr d ->
               d !! "eps_5y" = Some (VList (Py.repeat trailing years_eps))) as Hdict.
  { intros years_eps computed Hloop Hlen trailing Htr d Hd.
    apply fetch_financials_eps in Hd. destruct Hd as (eps & Heps & Hd).
    fold p in Heps.
    rewrite (eps_history_fallback p years_eps computed Hloop Hlen), Htr in Heps.
    injection Heps as <-. exact Hd. }
  split; [|split].
  - intros years_eps computed Hloop Hlen.
    pose proof (eps_history_fallback p years_eps computed Hloop Hlen) as Hstage.
    split.
    + intros Hnone. rewrite Hnone in Hstage. split; [exact Hstage|].
      apply (fetch_financials_eps_raises yf_Ticker stock_id years_eps quarters_rev _ Hstage).
    + intros trailing Htr. rewrite Htr in Hstage. split; [exact Hstage|].
      apply (Hdict years_eps computed Hloop Hlen trailing Htr).
  - intros years_eps. apply short_history_too_few.
  - intros Hshort Htr d Hd.
    destruct (short_history_too_few p 5 Hshort) as (computed & Hloop & Hlen).
    apply (Hdict 5 computed Hloop Hlen 4.5%float Htr d Hd).
Qed.

(** The ticker with two yearly incomes, fetched with the windows 5 and 4. *)
Lemma C3_eps_fallback_to_trailing_witness :
  len (incomeStatementHistory (profile_of (Samples.only Samples.short_history_ticker) "2330")) < 5
  /\ trailingEps (profile_of (Samples.only Samples.short_history_ticker) "2330")
     = Some 4.5%float
  /\ fetch_financials (Samples.only Samples.short_history_ticker) "2330" 5 4
     = inr (snapshot [4.5; 4.5; 4.5; 4.5; 4.5]%float Samples.good_rev
              [10; 15; 10; 20]%float [20; 20; 30; 20; 20]%float 100 80)
  /\ snapshot [4.5; 4.5; 4.5; 4.5; 4.5]%float Samples.good_rev
       [10; 15; 10; 20]%float [20; 20; 30; 20; 20]%float 100 80 !! "eps_5y"
     = Some (VList [4.5; 4.5; 4.5; 4.5; 4.5]%float).
Proof.
  assert (fetch_financials (Samples.only Samples.short_history_ticker) "2330" 5 4
          = inr (snapshot [4.5; 4.5; 4.5; 4.5; 4.5]%float Samples.good_rev
                   [10; 15; 10; 20]%float [20; 20; 30; 20; 20]%float 100 80)) as Hfetch
    by (vm_compute; reflexivity).
  assert (len (incomeStatementHistory
                 (profile_of (Samples.only Samples.short_history_ticker) "2330")) < 5)
    as Hshort by (vm_compute; reflexivity).
  split; [exact Hshort|]. split; [reflexivity|]. split; [exact Hfetch|].
  exact (proj2 (proj2 (C3_eps_fallback_to_trailing
                         (Samples.only Samples.short_history_ticker) "2330" 4))
           Hshort eq_refl _ Hfetch).
Defined.


(** C9. In the EPS extraction of the fetched strategy, a record whose
    net income is zero or missing, or any record when the shares
    outstanding are zero or missing, is skipped without any error; when
    such a record lies within the window, the computed list is shorter
    than the window, and the whole EPS history is the trailing-EPS
    fallback (or the fetch fails when there is none): the EPS values that
    were computed are discarded. *)
Theorem C9_skipped_record_forces_fallback :
  forall (yf_Ticker : string -> ticker) (stock_id : string)
         (years_eps quarters_rev : Z) (i : nat) (rec : income_statement),
    Z.of_nat i < years_eps ->
    incomeStatementHistory (profile_of yf_Ticker stock_id) !! i = Some rec ->
    zero_or_missing (netIncome_raw rec)
    \/ zero_or_missing (sharesOutstanding (profile_of yf_Ticker stock_id)) ->
    let p := profile_of yf_Ticker stock_id in
    let window := slice_to (incomeStatementHistory p) years_eps in
    exists computed,
      eps_loop (sharesOutstanding p) window [] = inr computed
      /\ computed = omap (eps_of (sharesOutstanding p)) window
      /\ eps_of (sharesOutstanding p) rec = None
      /\ len computed < years_eps
      /\ eps_history p years_eps
         = match trailingEps p with
           | None => inl (ValueError "無法取得年度 EPS")
           | Some trailing => inr (Py.repeat trailing years_eps)
           end
      /\ (trailingEps p = None ->
          exists e, fetch_financials yf_Ticker stock_id years_eps quarters_rev = inl e)
      /\ (forall d,
            fetch_financials yf_Ticker stock_id years_eps quarters_rev = inr d ->
            exists trailing,
              trailingEps p = Some trailing
              /\ d !! "eps_5y" = Some (VList (Py.repeat trailing years_eps))).
Proof.
  intros yf_Ticker stock_id years_eps quarters_rev i rec Hi Hrec Hzero p window.
  pose proof (eps_of_skips (sharesOutstanding p) rec Hzero) as Hskip.
  assert (window !! i = Some rec) as Hwin
    by (apply slice_to_lookup; assumption).
  pose proof (eps_loop_omap (sharesOutstanding p) window []) as Hloop.
  simpl in Hloop.
  assert (len (omap (eps_of (sharesOutstanding p)) window) < years_eps) as Hlen.
  { pose proof (length_omap_lt _ window i rec Hwin Hskip) as H1.
    pose proof (len_slice_to_le (incomeStatementHistory p) years_eps ltac:(lia)) as H2.
    fold window in H2. unfold len in *. lia. }
  pose proof (eps_history_fallback p years_eps _ Hloop Hlen) as Hstage.
  eexists. split; [exact Hloop|]. split; [reflexivity|].
  split; [exact Hskip|]. split; [exact Hlen|]. split; [exact Hstage|].
  split.
  - intros Hnone. rewrite Hnone in Hstage.
    apply (fetch_financials_eps_raises yf_Ticker stock_id years_eps quarters_rev _ Hstage).
  - intros d Hd. apply fetch_financials_eps in Hd.
    destruct Hd as (eps & Heps & Hd). fold p in Heps.
    rewrite Hstage in Heps.
    destruct (trailingEps p) as [trailing|]; [|discriminate].
    injection Heps as <-. exists trailing. split; [reflexivity | exact Hd].
Qed.

(** The ticker whose third yearly income is zero: four EPS values are
    computed, and none of them is kept. *)
Lemma C9_skipped_record_forces_fallback_witness :
  incomeStatementHistory (profile_of (Samples.only Samples.zero_income_ticker) "2330")
    !! 2%nat = Some (IncomeStatement (Some 0%float))
  /\ omap (eps_of (Some 10%float))
       (slice_to (incomeStatementHistory
                    (profile_of (Samples.only Samples.zero_income_ticker) "2330")) 5)
     = [5; 4; 2; 6]%float
  /\ exists computed,
      eps_loop (Some 10%float)
        (slice_to (incomeStatementHistory
                     (profile_of (Samples.only Samples.zero_income_ticker) "2330")) 5) []
      = inr computed
      /\ len computed < 5
      /\ eps_history (profile_of (Samples.only Samples.zero_income_ticker) "2330") 5
         = inr [4.5; 4.5; 4.5; 4.5; 4.5]%float.
Proof.
  split; [reflexivity|]. split; [vm_compute; reflexivity|].
  destruct (C9_skipped_record_forces_fallback
              (Samples.only Samples.zero_income_ticker) "2330" 5 4 2
              (IncomeStatement (Some 0%float)))
    as (computed & Hloop & _ & _ & Hlen & Hstage & _).
  - reflexivity.
  - reflexivity.
  - left. right. exists 0%float. split; reflexivity.
  - exists computed. split; [exact Hloop|]. split; [exact Hlen|]. exact Hstage.
Defined.

(** *** The stages and the fetch *)

Lemma fetch_financials_raises (yf_Ticker : string -> ticker) stock_id years_eps quarters_rev :
  (exists e, eps_history (profile_of yf_Ticker stock_id) years_eps = inl e)
  \/ (exists e, revenue_history
                  (quarterly_financials (yf_Ticker (stock_id +:+ ".TW"))) quarters_rev
                = inl e)
  \/ (exists e, roe_history (profile_of yf_Ticker stock_id)
                  (quarterly_financials (yf_Ticker (stock_id +:+ ".TW"))) quarters_rev
                = inl e)
  \/ (exists e, gross_margin_history
                  (financials (yf_Ticker (stock_id +:+ ".TW"))) years_eps
                = inl e) ->
  exists e, fetch_financials yf_Ticker stock_id years_eps quarters_rev = inl e.
Proof.
  unfold fetch_financials, profile_of.
  set (t := yf_Ticker (stock_id +:+ ".TW")).
  intros H.
  destruct (regularMarketPrice (info t)); [|eexists; reflexivity].
  destruct (bookValue (info t)); [|eexists; reflexivity].
  destruct (eps_history (info t) years_eps) as [e1|eps]; [eexists; reflexivity|].
  destruct (revenue_history _ quarters_rev) as [e2|rev]; [eexists; reflexivity|].
  destruct (roe_history _ _ quarters_rev) as [e3|roe]; [eexists; reflexivity|].
  destruct (gross_margin_history _ years_eps) as [e4|gm]; [eexists; reflexivity|].
  destruct H as [[e H]|[[e H]|[[e H]|[e H]]]]; discriminate.
Qed.

(** When the stages before it succeed, the error of a stage is the error
    of the fetch. *)
Lemma fetch_financials_revenue_error (yf_Ticker : string -> ticker)
    stock_id years_eps quarters_rev price bvps eps e :
  regularMarketPrice (profile_of yf_Ticker stock_id) = Some price ->
  bookValue (profile_of yf_Ticker stock_id) = Some bvps ->
  eps_history (profile_of yf_Ticker stock_id) years_eps = inr eps ->
  revenue_history (quarterly_financials (yf_Ticker (stock_id +:+ ".TW"))) quarters_rev
  = inl e ->
  fetch_financials yf_Ticker stock_id years_eps quarters_rev = inl e.
Proof.
  unfold fetch_financials, profile_of. intros -> -> -> ->. reflexivity.
Qed.

Lemma fetch_financials_gross_margin_error (yf_Ticker : string -> ticker)
    stock_id years_eps quarters_rev price bvps eps rev roe e :
  regularMarketPrice (profile_of yf_Ticker stock_id) = Some price ->
  bookValue (profile_of yf_Ticker stock_id) = Some bvps ->
  eps_history (profile_of yf_Ticker stock_id) years_eps = inr eps ->
  revenue_history (quarterly_financials (yf_Ticker (stock_id +:+ ".TW"))) quarters_rev
  = inr rev ->
  roe_history (profile_of yf_Ticker stock_id)
    (quarterly_financials (yf_Ticker (stock_id +:+ ".TW"))) quarters_rev = inr roe ->
  gross_margin_history (financials (yf_Ticker (stock_id +:+ ".TW"))) years_eps = inl e ->
  fetch_financials yf_Ticker stock_id years_eps quarters_rev = inl e.
Proof.
  unfold fetch_financials, profile_of. intros -> -> -> -> -> ->. reflexivity.
Qed.

Lemma fetch_financials_roe (yf_Ticker : string -> ticker)
    stock_id years_eps quarters_rev d :
  fetch_financials yf_Ticker stock_id years_eps quarters_rev = inr d ->
  exists roe,
    roe_history (profile_of yf_Ticker stock_id)
      (quarterly_financials (yf_Ticker (stock_id +:+ ".TW"))) quarters_rev = inr roe
    /\ d !! "roe_4q" = Some (VList roe).
Proof.
  intros H. apply fetch_financials_inr in H.
  destruct H as (price & bvps & eps & rev & roe & gm & _ & _ & _ & _ & Hroe & _ & ->).
  exists roe. split; [exact Hroe | reflexivity].
Qed.

(** *** The ROE stage *)

Lemma map_result_percent (equity : float) (l : list float) :
  truthy equity = true ->
  map_result (fun ni => percent ni equity) l
  = inr (map (fun ni => (ni / equity * 100)%float) l).
Proof.
  intros Heq. induction l as [|ni l IH]; simpl; [reflexivity|].
  unfold percent at 1. rewrite (truediv_truthy ni equity Heq). simpl.
  rewrite IH. reflexivity.
Qed.

Lemma roe_computed_spec (p : profile) (qf : gmap string (list float)) (q : Z) :
  roe_computed p qf q
  = inr (if roe_path_accepted p qf q then roe_values p qf q else []).
Proof.
  unfold roe_computed, roe_path_accepted, roe_values.
  destruct (qf !! "Net Income") as [row|]; [|reflexivity].
  destruct (totalStockholderEquity p) as [equity|]; [|reflexivity].
  destruct (truthy equity) eqn:Heq; [|reflexivity]. simpl.
  destruct (len (slice_to row q) =? q); [|reflexivity].
  apply map_result_percent, Heq.
Qed.

Lemma len_roe_values (p : profile) (qf : gmap string (list float)) (q : Z) :
  roe_path_accepted p qf q = true -> len (roe_values p qf q) = q.
Proof.
  unfold roe_path_accepted, roe_values.
  destruct (qf !! "Net Income") as [row|]; [|discriminate].
  destruct (totalStockholderEquity p) as [equity|]; [|discriminate].
  intros H. apply andb_true_iff in H as [_ H]. apply Z.eqb_eq in H.
  unfold len in *. rewrite length_map. exact H.
Qed.

(** The ROE stage, case by case. *)
Lemma roe_history_spec (p : profile) (qf : gmap string (list float)) (q : Z) :
  roe_history p qf q
  = if roe_path_accepted p qf q then inr (roe_values p qf q)
    else match py_or (trailingReturnOnEquity p) (returnOnEquity p) with
         | Some fallback_roe => inr (Py.repeat fallback_roe q)
         | None => if 0 <? q then inl (ValueError "無法取得季度 ROE 資料") else inr []
         end.
Proof.
  unfold roe_history. rewrite roe_computed_spec. simpl.
  destruct (roe_path_accepted p qf q) eqn:Hacc.
  - rewrite (len_roe_values p qf q Hacc), Z.ltb_irrefl. reflexivity.
  - change (len (@nil float)) with 0.
    destruct (Z.ltb_spec 0 q) as [Hq|Hq]; [reflexivity|].
    destruct (py_or _ _) as [f|]; [|reflexivity].
    unfold Py.repeat. replace (Z.to_nat q) with 0%nat by lia. reflexivity.
Qed.

(** [a or b] is [a] when [a] is present and not zero, and [b] when [a]
    is zero or missing. *)
Lemma py_or_first (a b : option float) (x : float) :
  a = Some x -> truthy x = true -> py_or a b = a.
Proof. intros -> Hx. unfold py_or, truthy_opt. rewrite Hx. reflexivity. Qed.

Lemma py_or_second (a b : option float) :
  zero_or_missing a -> py_or a b = b.
Proof.
  intros [->|(x & -> & Hx)]; [reflexivity|].
  unfold py_or, truthy_opt, truthy. rewrite Hx. reflexivity.
Qed.

(** C4, as the code has it.  In the fetched strategy the computed
    quarterly ROE (net income / equity * 100) is accepted only when the
    "Net Income" row, cut to the window, has exactly the length of the
    window (and the equity is present and non-zero).  Otherwise the whole
    window is one ROE figure of the profile repeated: the trailing
    figure when it is present and not zero, and the figure
    [returnOnEquity] when the trailing figure is missing or zero; for
    instance [12.3, 12.3, 12.3, 12.3] for such a figure of 12.3 and a
    window of 4.  When the trailing figure is missing or zero and
    [returnOnEquity] is missing, the fetch fails with an error if the
    window is positive, and the ROE history is empty, with no error, if
    the window is zero or less. *)
Theorem C4_roe_computed_or_fallback :
  forall (yf_Ticker : string -> ticker) (stock_id : string) (years_eps : Z),
    let p := profile_of yf_Ticker stock_id in
    let qf := quarterly_financials (yf_Ticker (stock_id +:+ ".TW")) in
    (forall q : Z,
        (roe_path_accepted p qf q = true
         <-> exists row equity,
              qf !! "Net Income" = Some row
              /\ totalStockholderEquity p = Some equity
              /\ truthy equity = true
              /\ len (slice_to row q) = q)
        /\ (roe_path_accepted p qf q = true ->
            roe_history p qf q = inr (roe_values p qf q)
            /\ len (roe_values p qf q) = q)
        /\ (roe_path_accepted p qf q = false ->
            (forall trailing,
                trailingReturnOnEquity p = Some trailing ->
                (trailing =? 0)%float = false ->
                roe_history p qf q = inr (Py.repeat trailing q)
                /\ forall d,
                    fetch_financials yf_Ticker stock_id years_eps q = inr d ->
                    d !! "roe_4q" = Some (VList (Py.repeat trailing q)))
            /\ (zero_or_missing (trailingReturnOnEquity p) ->
                (forall fallback_roe,
                    returnOnEquity p = Some fallback_roe ->
                    roe_history p qf q = inr (Py.repeat fallback_roe q)
                    /\ forall d,
                        fetch_financials yf_Ticker stock_id years_eps q = inr d ->
                        d !! "roe_4q" = Some (VList (Py.repeat fallback_roe q)))
                /\ (returnOnEquity p = None -> 0 < q ->
                    roe_history p qf q = inl (ValueError "無法取得季度 ROE 資料")
                    /\ exists e,
                        fetch_financials yf_Ticker stock_id years_eps q = inl e)
                /\ (returnOnEquity p = None -> q <= 0 ->
                    roe_history p qf q = inr []))))
    /\ (roe_path_accepted p qf 4 = false ->
        trailingReturnOnEquity p = Some Samples.roe_12_3
        \/ (zero_or_missing (trailingReturnOnEquity p)
            /\ returnOnEquity p = Some Samples.roe_12_3) ->
        forall d,
          fetch_financials yf_Ticker stock_id years_eps 4 = inr d ->
          d !! "roe_4q"
          = Some (VList [Samples.roe_12_3; Samples.roe_12_3;
                         Samples.roe_12_3; Samples.roe_12_3])).
Proof.
  intros yf_Ticker stock_id years_eps p qf.
  assert (forall q fallback_roe,
             roe_path_accepted p qf q = false ->
             py_or (trailingReturnOnEquity p) (returnOnEquity p) = Some fallback_roe ->
             forall d,
               fetch_financials yf_Ticker stock_id years_eps q = inr d ->
               d !! "roe_4q" = Some (VList (Py.repeat fallback_roe q))) as Hdict.
  { intros q f Hacc Hf d Hd. apply fetch_financials_roe in Hd.
    destruct Hd as (roe & Hroe & Hd). fold p qf in Hroe.
    rewrite roe_history_spec, Hacc, Hf in Hroe.
    injection Hroe as <-. exact Hd. }
  split.
  - intros q. pose proof (roe_history_spec p qf q) as Hspec.
    split; [|split].
    + unfold roe_path_accepted.
      destruct (qf !! "Net Income") as [row|];
        [|split; [discriminate | intros (? & ? & ? & _); discriminate]].
      destruct (totalStockholderEquity p) as [equity|];
        [|split; [discriminate | intros (? & ? & _ & ? & _); discriminate]].
      rewrite andb_true_iff, Z.eqb_eq. split.
      * intros [H1 H2]. exists row, equity. auto.
      * intros (row' & equity' & Hr & He & H1 & H2).
        injection Hr as <-. injection He as <-. auto.
    + intros Hacc. rewrite Hacc in Hspec.
      split; [exact Hspec | apply len_roe_values, Hacc].
    + intros Hacc. rewrite Hacc in Hspec. split.
      * intros trailing Ht Hnz.
        assert (py_or (trailingReturnOnEquity p) (returnOnEquity p) = Some trailing)
          as Hor.
        { rewrite <- Ht. apply (py_or_first _ _ trailing Ht).
          unfold truthy. rewrite Hnz. reflexivity. }
        rewrite Hor in Hspec. split; [exact Hspec|].
        apply (Hdict q trailing Hacc Hor).
      * intros Hzero.
        pose proof (py_or_second _ (returnOnEquity p) Hzero) as Hor.
        rewrite Hor in Hspec. split; [|split].
        -- intros f Hf. rewrite Hf in Hspec. split; [exact Hspec|].
           apply (Hdict q f Hacc). rewrite Hor. exact Hf.
        -- intros Hnone Hq. rewrite Hnone in Hspec.
           destruct (Z.ltb_spec 0 q); [|lia]. split; [exact Hspec|].
           apply fetch_financials_raises. right. right. left.
           eexists. exact Hspec.
        -- intros Hnone Hq. rewrite Hnone in Hspec.
           destruct (Z.ltb_spec 0 q); [lia|]. exact Hspec.
  - intros Hacc Hfig d Hd.
    apply (Hdict 4 Samples.roe_12_3 Hacc); [|exact Hd].
    destruct Hfig as [Ht|[Hzero Hf]].
    + rewrite <- Ht. apply (py_or_first _ _ Samples.roe_12_3 Ht). reflexivity.
    + rewrite <- Hf. apply py_or_second, Hzero.
Qed.

(** The ticker without a quarterly "Net Income" row, whose profile has no
    trailing ROE and a [returnOnEquity] of 12.3, fetched with a window of
    4 quarters. *)
Lemma C4_roe_computed_or_fallback_witness :
  roe_path_accepted (profile_of (Samples.only Samples.fallback_roe_ticker) "2330")
    (quarterly_financials Samples.fallback_roe_ticker) 4 = false
  /\ trailingReturnOnEquity (info Samples.fallback_roe_ticker) = None
  /\ returnOnEquity (info Samples.fallback_roe_ticker) = Some Samples.roe_12_3
  /\ fetch_financials (Samples.only Samples.fallback_roe_ticker) "2330" 5 4
     = inr (snapshot [5; 4; 3; 2; 6]%float Samples.good_rev
              [Samples.roe_12_3; Samples.roe_12_3; Samples.roe_12_3; Samples.roe_12_3]
              [20; 20; 30; 20; 20]%float 100 80)
  /\ snapshot [5; 4; 3; 2; 6]%float Samples.good_rev
       [Samples.roe_12_3; Samples.roe_12_3; Samples.roe_12_3; Samples.roe_12_3]
       [20; 20; 30; 20; 20]%float 100 80 !! "roe_4q"
     = Some (VList [Samples.roe_12_3; Samples.roe_12_3;
                    Samples.roe_12_3; Samples.roe_12_3]).
Proof.
  assert (fetch_financials (Samples.only Samples.fallback_roe_ticker) "2330" 5 4
          = inr (snapshot [5; 4; 3; 2; 6]%float Samples.good_rev
                   [Samples.roe_12_3; Samples.roe_12_3; Samples.roe_12_3; Samples.roe_12_3]
                   [20; 20; 30; 20; 20]%float 100 80)) as Hfetch
    by (vm_compute; reflexivity).
  split; [reflexivity|]. split; [reflexivity|]. split; [reflexivity|].
  split; [exact Hfetch|].
  exact (proj2 (C4_roe_computed_or_fallback
                  (Samples.only Samples.fallback_roe_ticker) "2330" 5)
           eq_refl (or_intror (conj (or_introl eq_refl) eq_refl)) _ Hfetch).
Defined.

(** C4 as it was stated fails in two ways.  With a window of 4 quarters,
    no quarterly "Net Income" row, a trailing ROE of zero in the profile
    and no [returnOnEquity], the fetch raises the ROE error although the
    profile has a trailing figure.  With a window of zero quarters, no
    quarterly "Net Income" row and no ROE figure in the profile, the
    computed path is not accepted and yet the fetch succeeds, with an
    empty ROE history. *)
Lemma C4_zero_trailing_figure_and_empty_window :
  (roe_path_accepted (profile_of (Samples.only Samples.zero_trailing_roe_ticker) "2330")
     (quarterly_financials Samples.zero_trailing_roe_ticker) 4 = false
   /\ trailingReturnOnEquity (info Samples.zero_trailing_roe_ticker) = Some 0%float
   /\ returnOnEquity (info Samples.zero_trailing_roe_ticker) = None
   /\ fetch_financials (Samples.only Samples.zero_trailing_roe_ticker) "2330" 5 4
      = inl (ValueError "無法取得季度 ROE 資料"))
  /\ (roe_path_accepted (profile_of (Samples.only Samples.no_roe_ticker) "2330")
        (quarterly_financials Samples.no_roe_ticker) 0 = false
      /\ trailingReturnOnEquity (info Samples.no_roe_ticker) = None
      /\ returnOnEquity (info Samples.no_roe_ticker) = None
      /\ fetch_financials (Samples.only Samples.no_roe_ticker) "2330" 5 0
         = inr (snapshot [5; 4; 3; 2; 6]%float [] [] [20; 20; 30; 20; 20]%float 100 80)).
Proof.
  split.
  - split; [reflexivity|]. split; [reflexivity|]. split; [reflexivity|].
    vm_compute; reflexivity.
  - split; [reflexivity|]. split; [reflexivity|]. split; [reflexivity|].
    vm_compute; reflexivity.
Qed.

(** *** Revenue and gross margin *)

Lemma fetch_messages_distinct : NoDup fetch_messages.
Proof. apply (bool_decide_unpack _). vm_compute. exact I. Qed.

(** C5. In the fetched strategy revenue and gross margin have no
    fallback.  When the quarterly "Total Revenue" row yields fewer entries
    than the window, or the yearly "Gross Profit" or "Total Revenue" row
    is missing, or one of the two rows cut to the window is shorter than
    the window, the stage raises an error with a message of its own, the
    fetch raises an error and returns no snapshot; when the stages before
    it succeed, the error of the fetch is the error of that stage.  The
    messages of the errors of the fetch differ from one another. *)
Theorem C5_revenue_and_gross_margin_have_no_fallback :
  forall (yf_Ticker : string -> ticker) (stock_id : string) (years_eps quarters_rev : Z),
    let p := profile_of yf_Ticker stock_id in
    let qf := quarterly_financials (yf_Ticker (stock_id +:+ ".TW")) in
    let fin := financials (yf_Ticker (stock_id +:+ ".TW")) in
    let fetched := fetch_financials yf_Ticker stock_id years_eps quarters_rev in
    (len (revenue_read qf quarters_rev) < quarters_rev ->
     revenue_history qf quarters_rev = inl (ValueError "季度營收資料不足")
     /\ (exists e, fetched = inl e)
     /\ (forall price bvps eps,
            regularMarketPrice p = Some price -> bookValue p = Some bvps ->
            eps_history p years_eps = inr eps ->
            fetched = inl (ValueError "季度營收資料不足")))
    /\ (fin !! "Gross Profit" = None \/ fin !! "Total Revenue" = None ->
        gross_margin_history fin years_eps = inl (ValueError "無法取得年度毛利率資料")
        /\ (exists e, fetched = inl e)
        /\ (forall price bvps eps rev roe,
               regularMarketPrice p = Some price -> bookValue p = Some bvps ->
               eps_history p years_eps = inr eps ->
               revenue_history qf quarters_rev = inr rev ->
               roe_history p qf quarters_rev = inr roe ->
               fetched = inl (ValueError "無法取得年度毛利率資料")))
    /\ (forall gp tr,
          fin !! "Gross Profit" = Some gp -> fin !! "Total Revenue" = Some tr ->
          len (slice_to gp years_eps) < years_eps
          \/ len (slice_to tr years_eps) < years_eps ->
          gross_margin_history fin years_eps = inl (ValueError "年度毛利率資料不足")
          /\ (exists e, fetched = inl e)
          /\ (forall price bvps eps rev roe,
                 regularMarketPrice p = Some price -> bookValue p = Some bvps ->
                 eps_history p years_eps = inr eps ->
                 revenue_history qf quarters_rev = inr rev ->
                 roe_history p qf quarters_rev = inr roe ->
                 fetched = inl (ValueError "年度毛利率資料不足")))
    /\ NoDup fetch_messages.
Proof.
  intros yf_Ticker stock_id years_eps quarters_rev p qf fin fetched.
  split; [|split; [|split]].
  - intros Hshort.
    assert (revenue_history qf quarters_rev = inl (ValueError "季度營收資料不足")) as Hrev.
    { unfold revenue_history. fold (revenue_read qf quarters_rev).
      destruct (Z.ltb_spec (len (revenue_read qf quarters_rev)) quarters_rev);
        [reflexivity | lia]. }
    split; [exact Hrev|]. split.
    + apply fetch_financials_raises. right. left. eexists. exact Hrev.
    + intros price bvps eps Hp Hb He.
      apply (fetch_financials_revenue_error yf_Ticker stock_id years_eps quarters_rev
               price bvps eps _ Hp Hb He Hrev).
  - intros Hmissing.
    assert (gross_margin_history fin years_eps
            = inl (ValueError "無法取得年度毛利率資料")) as Hgm.
    { unfold gross_margin_history.
      destruct Hmissing as [H|H]; rewrite H; [reflexivity|].
      destruct (fin !! "Gross Profit"); reflexivity. }
    split; [exact Hgm|]. split.
    + apply fetch_financials_raises. right. right. right. eexists. exact Hgm.
    + intros price bvps eps rev roe Hp Hb He Hr Ho.
      apply (fetch_financials_gross_margin_error yf_Ticker stock_id years_eps
               quarters_rev price bvps eps rev roe _ Hp Hb He Hr Ho Hgm).
  - intros gp tr Hgp Htr Hshort.
    assert (gross_margin_history fin years_eps
            = inl (ValueError "年度毛利率資料不足")) as Hgm.
    { unfold gross_margin_history. rewrite Hgp, Htr.
      destruct (Z.ltb_spec (len (slice_to gp years_eps)) years_eps);
        [reflexivity|].
      destruct (Z.ltb_spec (len (slice_to tr years_eps)) years_eps);
        [reflexivity|].
      lia. }
    split; [exact Hgm|]. split.
    + apply fetch_financials_raises. right. right. right. eexists. exact Hgm.
    + intros price bvps eps rev roe Hp Hb He Hr Ho.
      apply (fetch_financials_gross_margin_error yf_Ticker stock_id years_eps
               quarters_rev price bvps eps rev roe _ Hp Hb He Hr Ho Hgm).
  - apply fetch_messages_distinct.
Qed.

(** The ticker without a yearly "Gross Profit" row, the one with three
    quarters of revenue and the one with four years of gross profit,
    fetched with the windows 5 and 4. *)
Lemma C5_revenue_and_gross_margin_have_no_fallback_witness :
  (financials Samples.no_gross_profit_ticker !! "Gross Profit" = None
   /\ fetch_financials (Samples.only Samples.no_gross_profit_ticker) "2330" 5 4
      = inl (ValueError "無法取得年度毛利率資料"))
  /\ (len (revenue_read (quarterly_financials Samples.short_revenue_ticker) 4) < 4
      /\ fetch_financials (Samples.only Samples.short_revenue_ticker) "2330" 5 4
         = inl (ValueError "季度營收資料不足"))
  /\ (len (slice_to [2; 2; 3; 2]%float 5) < 5
      /\ fetch_financials (Samples.only Samples.short_gross_profit_ticker) "2330" 5 4
         = inl (ValueError "年度毛利率資料不足")).
Proof.
  split; [|split].
  3: {
    assert (len (slice_to [2; 2; 3; 2]%float 5) < 5) as Hshort
      by (vm_compute; reflexivity).
    split; [exact Hshort|].
    refine (proj2 (proj2 (proj1 (proj2 (proj2
              (C5_revenue_and_gross_margin_have_no_fallback
                 (Samples.only Samples.short_gross_profit_ticker) "2330" 5 4)))
              [2; 2; 3; 2]%float [10; 10; 10; 10; 10]%float eq_refl eq_refl
              (or_introl Hshort)))
              100%float 80%float [5; 4; 3; 2; 6]%float Samples.good_rev
              [10; 15; 10; 20]%float eq_refl eq_refl _ _ _);
      vm_compute; reflexivity. }
  - split; [reflexivity|].
    refine (proj2 (proj2 (proj1 (proj2
              (C5_revenue_and_gross_margin_have_no_fallback
                 (Samples.only Samples.no_gross_profit_ticker) "2330" 5 4))
              (or_introl eq_refl)))
              100%float 80%float [5; 4; 3; 2; 6]%float Samples.good_rev
              [10; 15; 10; 20]%float eq_refl eq_refl _ _ _);
      vm_compute; reflexivity.
  - assert (len (revenue_read (quarterly_financials Samples.short_revenue_ticker) 4) < 4)
      as Hshort by (vm_compute; reflexivity).
    split; [exact Hshort|].
    refine (proj2 (proj2 (proj1
              (C5_revenue_and_gross_margin_have_no_fallback
                 (Samples.only Samples.short_revenue_ticker) "2330" 5 4)
              Hshort))
              100%float 80%float [5; 4; 3; 2; 6]%float eq_refl eq_refl _);
      vm_compute; reflexivity.
Defined.

End Fetch.

(** ** Properties of the interactive input *)

Section Interactive.

Import Stock.

Variable float_of_string : string -> option float.
Variable strip : string -> string.

Local Abbreviation float_each := (float_each float_of_string strip).
Local Abbreviation get_float_list_try := (get_float_list_try float_of_string strip).
Local Abbreviation get_float_list_loop := (get_float_list_loop float_of_string strip).
Local Abbreviation get_float_list := (get_float_list float_of_string strip).
Local Abbreviation read_scalars := (read_scalars float_of_string).
Local Abbreviation rejected := (rejected float_of_string strip).
Local Abbreviation valid := (valid float_of_string strip).

(** *** Parsing one line *)

Lemma float_each_parses (vs : list string) (xs : list float) (w : world) :
  Forall2 (fun v x => float_of_string (strip v) = Some x) vs xs ->
  float_each vs w = (inr xs, w).
Proof.
  intros H. induction H as [|v x vs xs Hv _ IH]; simpl; [reflexivity|].
  unfold io_bind, float_. rewrite Hv. simpl. rewrite IH. reflexivity.
Qed.

(** Either some token fails and [ValueError] is raised, or all of them
    parse. *)
Lemma float_each_cases (vs : list string) (w : world) :
  (exists msg, float_each vs w = (inl (ValueError msg), w))
  \/ (exists xs,
        float_each vs w = (inr xs, w)
        /\ Forall2 (fun v x => float_of_string (strip v) = Some x) vs xs).
Proof.
  induction vs as [|v vs IH]; simpl.
  - right. exists []. split; [reflexivity | constructor].
  - unfold io_bind, float_.
    destruct (float_of_string (strip v)) as [x|] eqn:Hv; simpl.
    + destruct IH as [[msg IH]|(xs & IH & Hxs)]; rewrite IH.
      * left. exists msg. reflexivity.
      * right. exists (x :: xs). split; [reflexivity|]. constructor; assumption.
    + left. eexists. reflexivity.
Qed.

Lemma parses_not_malformed (vs : list string) (xs : list float) :
  Forall2 (fun v x => float_of_string (strip v) = Some x) vs xs ->
  Exists (fun v => float_of_string (strip v) = None) vs -> False.
Proof.
  intros H. induction H as [|v x vs xs Hv _ IH]; intros HE;
    inversion HE; subst; [congruence | auto].
Qed.

(** Every line is either rejected or valid: the two cases of the loop
    leave nothing out. *)
Lemma tokens_fail_or_parse (vs : list string) :
  Exists (fun v => float_of_string (strip v) = None) vs
  \/ exists xs, Forall2 (fun v x => float_of_string (strip v) = Some x) vs xs.
Proof.
  induction vs as [|v vs IH].
  - right. exists []. constructor.
  - destruct (float_of_string (strip v)) as [x|] eqn:Hv.
    + destruct IH as [IH|[xs IH]].
      * left. apply Exists_cons_tl, IH.
      * right. exists (x :: xs). constructor; assumption.
    + left. apply Exists_cons_hd, Hv.
Qed.

Lemma line_rejected_or_valid (count : Z) (line : string) :
  rejected count line \/ exists values, valid count line values.
Proof.
  destruct (tokens_fail_or_parse (split "," line)) as [H|[xs H]].
  - left. left. exact H.
  - destruct (Z.eq_dec (len xs) count) as [Heq|Hne].
    + right. exists xs. split; assumption.
    + left. right. apply Forall2_length in H. unfold len in *. lia.
Qed.

(** The lines of the input are rejected up to the first valid one, if
    there is one. *)
Lemma lines_until_valid (count : Z) (lines : list string) :
  Forall (rejected count) lines
  \/ exists bad good values rest,
      lines = bad ++ good :: rest
      /\ Forall (rejected count) bad
      /\ valid count good values.
Proof.
  induction lines as [|line lines IH].
  - left. constructor.
  - destruct (line_rejected_or_valid count line) as [Hrej|[values Hval]].
    + destruct IH as [IH|(bad & good & vs & rest & -> & Hbad & Hgood)].
      * left. constructor; assumption.
      * right. exists (line :: bad), good, vs, rest.
        split; [reflexivity|]. split; [constructor; assumption | assumption].
    + right. exists [], line, values, lines.
      split; [reflexivity|]. split; [constructor | assumption].
Qed.

Lemma get_float_list_try_rejected prompt count line rest out :
  rejected count line ->
  exists msg,
    get_float_list_try prompt count (World (line :: rest) out)
    = (inl (ValueError msg), World rest (out ++ [Prompt (list_prompt prompt count)])).
Proof.
  intros Hrej. unfold Stock.get_float_list_try, io_bind, input. simpl.
  destruct (float_each_cases (split "," line)
              (World rest (out ++ [Prompt (list_prompt prompt count)])))
    as [[msg H]|(xs & H & Hxs)]; rewrite H.
  - exists msg. reflexivity.
  - destruct Hrej as [Hmal|Hlen].
    + exfalso. apply (parses_not_malformed _ _ Hxs Hmal).
    + apply Forall2_length in Hxs.
      destruct (Z.eqb_spec (len xs) count) as [Heq|Hne]; simpl.
      * exfalso. apply Hlen. unfold len in *. lia.
      * eexists. reflexivity.
Qed.

Lemma get_float_list_try_valid prompt count line values rest out :
  valid count line values ->
  get_float_list_try prompt count (World (line :: rest) out)
  = (inr values, World rest (out ++ [Prompt (list_prompt prompt count)])).
Proof.
  intros [Hparse Hlen]. unfold Stock.get_float_list_try, io_bind, input. simpl.
  rewrite (float_each_parses _ _ _ Hparse).
  rewrite Hlen, Z.eqb_refl. reflexivity.
Qed.

Lemma get_float_list_try_eof prompt count out :
  get_float_list_try prompt count (World [] out)
  = (inl EOFError, World [] (out ++ [Prompt (list_prompt prompt count)])).
Proof. reflexivity. Qed.

(** *** The retry loop *)

Lemma get_float_list_loop_unfold turns prompt count w :
  get_float_list_loop turns prompt count w
  = match get_float_list_try prompt count w with
    | (inl (ValueError _), w') =>
        match turns with
        | O => (inl EOFError, w')
        | S turns' =>
            get_float_list_loop turns' prompt count
              (World (stdin w') (stdout w' ++ [Print retry_message]))
        end
    | r => r
    end.
Proof. destruct turns; reflexivity. Qed.

Lemma get_float_list_loop_retries prompt count good values rest bad :
  forall turns out,
    Forall (rejected count) bad ->
    (length bad <= turns)%nat ->
    valid count good values ->
    get_float_list_loop turns prompt count (World (bad ++ good :: rest) out)
    = (inr values,
       World rest (out ++ retries prompt count bad
                       ++ [Prompt (list_prompt prompt count)])).
Proof.
  induction bad as [|b bad IH]; intros turns out Hbad Hturns Hgood;
    rewrite get_float_list_loop_unfold.
  - simpl. rewrite (get_float_list_try_valid _ _ _ _ _ _ Hgood). reflexivity.
  - inversion Hbad as [|? ? Hb Hbad']; subst.
    simpl app.
    destruct (get_float_list_try_rejected prompt count b (bad ++ good :: rest) out Hb)
      as [msg Htry].
    rewrite Htry.
    destruct turns as [|turns]; [simpl in Hturns; lia|].
    cbn [stdin stdout].
    rewrite IH by (auto; simpl in Hturns; lia).
    simpl. rewrite <- !app_assoc. reflexivity.
Qed.

Lemma get_float_list_loop_eof prompt count lines :
  forall turns out,
    Forall (rejected count) lines ->
    (length lines <= turns)%nat ->
    get_float_list_loop turns prompt count (World lines out)
    = (inl EOFError,
       World [] (out ++ retries prompt count lines
                     ++ [Prompt (list_prompt prompt count)])).
Proof.
  induction lines as [|b lines IH]; intros turns out Hbad Hturns;
    rewrite get_float_list_loop_unfold.
  - reflexivity.
  - inversion Hbad as [|? ? Hb Hbad']; subst.
    destruct (get_float_list_try_rejected prompt count b lines out Hb) as [msg Htry].
    rewrite Htry.
    destruct turns as [|turns]; [simpl in Hturns; lia|].
    cbn [stdin stdout].
    rewrite IH by (auto; simpl in Hturns; lia).
    simpl. rewrite <- !app_assoc. reflexivity.
Qed.

Lemma get_float_list_retries prompt count bad good values rest out :
  Forall (rejected count) bad ->
  valid count good values ->
  get_float_list prompt count (World (bad ++ good :: rest) out)
  = (inr values,
     World rest (out ++ retries prompt count bad
                     ++ [Prompt (list_prompt prompt count)])).
Proof.
  intros Hbad Hgood. unfold Stock.get_float_list. cbn [stdin].
  apply get_float_list_loop_retries; [assumption | | assumption].
  rewrite length_app. lia.
Qed.

Lemma get_float_list_eof prompt count lines out :
  Forall (rejected count) lines ->
  get_float_list prompt count (World lines out)
  = (inl EOFError,
     World [] (out ++ retries prompt count lines
                   ++ [Prompt (list_prompt prompt count)])).
Proof.
  intros Hbad. unfold Stock.get_float_list. cbn [stdin].
  apply get_float_list_loop_eof; [assumption | lia].
Qed.

(** The retries allowed by [get_float_list] are enough: allowing more
    changes nothing, so the loop never stops for want of a retry. *)
Lemma get_float_list_loop_enough turns prompt count w :
  (length (stdin w) <= turns)%nat ->
  get_float_list_loop turns prompt count w = get_float_list prompt count w.
Proof.
  intros Hturns. destruct w as [lines out]. unfold Stock.get_float_list.
  cbn [stdin] in *.
  destruct (lines_until_valid count lines)
    as [Hbad|(bad & good & values & rest & -> & Hbad & Hgood)].
  - rewrite !get_float_list_loop_eof by (auto; lia). reflexivity.
  - rewrite length_app in *. cbn [length] in *.
    rewrite !(get_float_list_loop_retries prompt count good values rest bad)
      by (auto; lia).
    reflexivity.
Qed.

(** *** The two scalars *)

Lemma read_scalars_price_fails price_line rest out :
  float_of_string price_line = None ->
  read_scalars (World (price_line :: rest) out)
  = (inr None, World rest (out ++ [Prompt "輸入當前股價: "; Print scalar_message])).
Proof.
  intros H. unfold Stock.read_scalars, try_except_ValueError, io_bind, input, float_.
  simpl. rewrite H. simpl. rewrite <- app_assoc. reflexivity.
Qed.

Lemma read_scalars_book_fails price_line book_line price rest out :
  float_of_string price_line = Some price ->
  float_of_string book_line = None ->
  read_scalars (World (price_line :: book_line :: rest) out)
  = (inr None,
     World rest (out ++ [Prompt "輸入當前股價: "; Prompt "輸入每股淨值: ";
                         Print scalar_message])).
Proof.
  intros H1 H2. unfold Stock.read_scalars, try_except_ValueError, io_bind, input, float_.
  simpl. rewrite H1. simpl. rewrite H2. simpl. rewrite <- !app_assoc. reflexivity.
Qed.

Lemma read_scalars_both_parse price_line book_line price bvps rest out :
  float_of_string price_line = Some price ->
  float_of_string book_line = Some bvps ->
  read_scalars (World (price_line :: book_line :: rest) out)
  = (inr (Some (price, bvps)),
     World rest (out ++ [Prompt "輸入當前股價: "; Prompt "輸入每股淨值: "])).
Proof.
  intros H1 H2. unfold Stock.read_scalars, try_except_ValueError, io_bind, input, float_.
  simpl. rewrite H1. simpl. rewrite H2. simpl. rewrite <- !app_assoc. reflexivity.
Qed.

(** *** [main] up to the scalars *)

Lemma main_after_lists stock_id b1 l1 eps b2 l2 rev b3 l3 roe b4 l4 gm tail out :
  Forall (rejected 5) b1 -> valid 5 l1 eps ->
  Forall (rejected 4) b2 -> valid 4 l2 rev ->
  Forall (rejected 4) b3 -> valid 4 l3 roe ->
  Forall (rejected 5) b4 -> valid 5 l4 gm ->
  main float_of_string strip
    (World (stock_id :: b1 ++ l1 :: b2 ++ l2 :: b3 ++ l3 :: b4 ++ l4 :: tail) out)
  = match read_scalars (World tail (out ++ lists_output b1 b2 b3 b4)) with
    | (inl e, w') => (inl e, w')
    | (inr None, w') => (inr tt, w')
    | (inr (Some (price, book_value_per_share)), w') =>
        match truediv price book_value_per_share with
        | inl e => (inl e, w')
        | inr pb_ratio =>
            report stock_id (conditions eps rev roe gm pb_ratio) w'
        end
    end.
Proof.
  intros Hb1 Hl1 Hb2 Hl2 Hb3 Hl3 Hb4 Hl4.
  unfold Stock.main. unfold io_bind at 1. unfold input at 1. cbn [stdin stdout].
  unfold io_bind at 1. rewrite (get_float_list_retries _ _ _ _ _ _ _ Hb1 Hl1).
  unfold io_bind at 1. rewrite (get_float_list_retries _ _ _ _ _ _ _ Hb2 Hl2).
  unfold io_bind at 1. rewrite (get_float_list_retries _ _ _ _ _ _ _ Hb3 Hl3).
  unfold io_bind at 1. rewrite (get_float_list_retries _ _ _ _ _ _ _ Hb4 Hl4).
  unfold io_bind at 1.
  replace (((((out ++ [Prompt "請輸入股票代碼: "])
               ++ retries "輸入近5年 EPS" 5 b1 ++ [Prompt (list_prompt "輸入近5年 EPS" 5)])
              ++ retries "輸入近4季每股營收" 4 b2
              ++ [Prompt (list_prompt "輸入近4季每股營收" 4)])
             ++ retries "輸入近4季 ROE（%）" 4 b3
             ++ [Prompt (list_prompt "輸入近4季 ROE（%）" 4)])
            ++ retries "輸入近5年毛利率（%）" 5 b4
            ++ [Prompt (list_prompt "輸入近5年毛利率（%）" 5)])
    with (out ++ lists_output b1 b2 b3 b4)
    by (unfold lists_output, list_rounds; rewrite <- !app_assoc; reflexivity).
  destruct (read_scalars _) as [[e|[[price bvps]|]] w']; try reflexivity.
  unfold io_raise. destruct (truediv price bvps); reflexivity.
Qed.

(** C7. In the interactive strategy, for every history field: each line
    that is malformed (some token fails float parsing) or has more or fewer
    values than expected is answered by the error message and a new
    prompt, however many such lines there are, until a valid list is
    entered, which is returned; only the end of the input stops the
    retries otherwise.  The price and the book value are read once each:
    when either fails to parse, [main] prints one error message and
    returns, leaving what follows unread.  (The lines of any input are
    rejected up to the first valid one, if there is one, so the first two
    statements cover every input.) *)
Theorem C7_lists_retry_scalars_abort :
  (forall count lines,
      Forall (rejected count) lines
      \/ exists bad good values rest,
          lines = bad ++ good :: rest
          /\ Forall (rejected count) bad
          /\ valid count good values)
  /\ (forall prompt count bad good values rest out,
      Forall (rejected count) bad ->
      valid count good values ->
      get_float_list prompt count (World (bad ++ good :: rest) out)
      = (inr values,
         World rest (out ++ retries prompt count bad
                         ++ [Prompt (list_prompt prompt count)])))
  /\ (forall prompt count lines out,
        Forall (rejected count) lines ->
        get_float_list prompt count (World lines out)
        = (inl EOFError,
           World [] (out ++ retries prompt count lines
                         ++ [Prompt (list_prompt prompt count)])))
  /\ (forall stock_id b1 l1 eps b2 l2 rev b3 l3 roe b4 l4 gm price_line rest out,
        Forall (rejected 5) b1 -> valid 5 l1 eps ->
        Forall (rejected 4) b2 -> valid 4 l2 rev ->
        Forall (rejected 4) b3 -> valid 4 l3 roe ->
        Forall (rejected 5) b4 -> valid 5 l4 gm ->
        float_of_string price_line = None ->
        main float_of_string strip
          (World (stock_id :: b1 ++ l1 :: b2 ++ l2 :: b3 ++ l3 :: b4 ++ l4
                           :: price_line :: rest) out)
        = (inr tt,
           World rest ((out ++ lists_output b1 b2 b3 b4)
                       ++ [Prompt "輸入當前股價: "; Print scalar_message])))
  /\ (forall stock_id b1 l1 eps b2 l2 rev b3 l3 roe b4 l4 gm
             price_line book_line price rest out,
        Forall (rejected 5) b1 -> valid 5 l1 eps ->
        Forall (rejected 4) b2 -> valid 4 l2 rev ->
        Forall (rejected 4) b3 -> valid 4 l3 roe ->
        Forall (rejected 5) b4 -> valid 5 l4 gm ->
        float_of_string price_line = Some price ->
        float_of_string book_line = None ->
        main float_of_string strip
          (World (stock_id :: b1 ++ l1 :: b2 ++ l2 :: b3 ++ l3 :: b4 ++ l4
                           :: price_line :: book_line :: rest) out)
        = (inr tt,
           World rest ((out ++ lists_output b1 b2 b3 b4)
                       ++ [Prompt "輸入當前股價: "; Prompt "輸入每股淨值: ";
                           Print scalar_message]))).
Proof.
  split; [|split; [|split; [|split]]].
  - intros. apply lines_until_valid.
  - intros. apply get_float_list_retries; assumption.
  - intros. apply get_float_list_eof; assumption.
  - intros stock_id b1 l1 eps b2 l2 rev b3 l3 roe b4 l4 gm price_line rest out
      Hb1 Hl1 Hb2 Hl2 Hb3 Hl3 Hb4 Hl4 Hprice.
    rewrite (main_after_lists stock_id b1 l1 eps b2 l2 rev b3 l3 roe b4 l4 gm
               _ out Hb1 Hl1 Hb2 Hl2 Hb3 Hl3 Hb4 Hl4).
    rewrite (read_scalars_price_fails _ _ _ Hprice). reflexivity.
  - intros stock_id b1 l1 eps b2 l2 rev b3 l3 roe b4 l4 gm price_line book_line
      price rest out Hb1 Hl1 Hb2 Hl2 Hb3 Hl3 Hb4 Hl4 Hprice Hbook.
    rewrite (main_after_lists stock_id b1 l1 eps b2 l2 rev b3 l3 roe b4 l4 gm
               _ out Hb1 Hl1 Hb2 Hl2 Hb3 Hl3 Hb4 Hl4).
    rewrite (read_scalars_book_fails _ _ _ _ _ Hprice Hbook). reflexivity.
Qed.

End Interactive.

(** A 5-count field: "1,2,3" has too few values and "a,b,c,d,e" does not
    parse; both are answered by the message and a new prompt, and
    "1,2,3,4,5" is returned as [1.0, 2.0, 3.0, 4.0, 5.0]. *)
Lemma C7_lists_retry_scalars_abort_witness :
  Forall (rejected Samples.float_of_decimal Samples.strip_blanks 5) ["1,2,3"; "a,b,c,d,e"]
  /\ valid Samples.float_of_decimal Samples.strip_blanks 5 "1,2,3,4,5" [1; 2; 3; 4; 5]%float
  /\ Stock.get_float_list Samples.float_of_decimal Samples.strip_blanks "輸入近5年 EPS" 5
       (Stock.World ["1,2,3"; "a,b,c,d,e"; "1,2,3,4,5"; "2,3,2,3"] [])
     = (inr [1; 2; 3; 4; 5]%float,
        Stock.World ["2,3,2,3"]
          [ Stock.Prompt "輸入近5年 EPS（用逗號分隔，預期 5 筆）: ";
            Stock.Print "輸入格式錯誤，請重新輸入。";
            Stock.Prompt "輸入近5年 EPS（用逗號分隔，預期 5 筆）: ";
            Stock.Print "輸入格式錯誤，請重新輸入。";
            Stock.Prompt "輸入近5年 EPS（用逗號分隔，預期 5 筆）: " ]).
Proof.
  assert (Forall (rejected Samples.float_of_decimal Samples.strip_blanks 5)
            ["1,2,3"; "a,b,c,d,e"]) as Hbad.
  { constructor; [|constructor; [|constructor]].
    - right. vm_compute. discriminate.
    - left. apply Exists_cons_hd. vm_compute. reflexivity. }
  assert (valid Samples.float_of_decimal Samples.strip_blanks 5 "1,2,3,4,5"
            [1; 2; 3; 4; 5]%float) as Hgood.
  { split; [|reflexivity].
    unfold parses_to. repeat constructor. }
  split; [exact Hbad|]. split; [exact Hgood|].
  exact (proj1 (proj2 (C7_lists_retry_scalars_abort
                         Samples.float_of_decimal Samples.strip_blanks))
           "輸入近5年 EPS" 5 ["1,2,3"; "a,b,c,d,e"] "1,2,3,4,5" [1; 2; 3; 4; 5]%float
           ["2,3,2,3"] [] Hbad Hgood).
Defined.

(** ** A book value of zero *)

Section ZeroBookValue.

Import Screener.

(** C6, as the code has it.  Division by zero is not prevented upstream.
    The fetch guarantees only that the price and the book value per share
    are present, and the interactive input only that they parse as
    numbers; neither excludes zero.  The calculator does not guard the
    division: on what the provider produced it raises [ZeroDivisionError]
    when the book value is zero, and gives price / book value
    otherwise. *)
Theorem C6_providers_check_presence_only :
  (forall (yf_Ticker : string -> ticker) stock_id years_eps quarters_rev d,
      fetch_financials yf_Ticker stock_id years_eps quarters_rev = inr d ->
      exists price bvps,
        regularMarketPrice (profile_of yf_Ticker stock_id) = Some price
        /\ bookValue (profile_of yf_Ticker stock_id) = Some bvps
        /\ d !! "price" = Some (VNum price)
        /\ d !! "bvps" = Some (VNum bvps)
        /\ calculate_indicators d
           = if (bvps =? 0)%float
             then (inl (ZeroDivisionError "float division by zero"), d)
             else (inr tt, <["pb_ratio" := VNum (price / bvps)%float]> d))
  /\ (forall (float_of_string : string -> option float) (strip : string -> string)
             stock_id b1 l1 eps b2 l2 rev b3 l3 roe b4 l4 gm
             price_line book_line price bvps rest out,
        Forall (rejected float_of_string strip 5) b1 ->
        valid float_of_string strip 5 l1 eps ->
        Forall (rejected float_of_string strip 4) b2 ->
        valid float_of_string strip 4 l2 rev ->
        Forall (rejected float_of_string strip 4) b3 ->
        valid float_of_string strip 4 l3 roe ->
        Forall (rejected float_of_string strip 5) b4 ->
        valid float_of_string strip 5 l4 gm ->
        float_of_string price_line = Some price ->
        float_of_string book_line = Some bvps ->
        let w' := Stock.World rest
                    ((out ++ lists_output b1 b2 b3 b4)
                     ++ [Stock.Prompt "輸入當前股價: "; Stock.Prompt "輸入每股淨值: "]) in
        Stock.main float_of_string strip
          (Stock.World (stock_id :: b1 ++ l1 :: b2 ++ l2 :: b3 ++ l3 :: b4 ++ l4
                                 :: price_line :: book_line :: rest) out)
        = if (bvps =? 0)%float
          then (inl (ZeroDivisionError "float division by zero"), w')
          else Stock.report stock_id
                 (Stock.conditions eps rev roe gm (price / bvps)%float) w').
Proof.
  split.
  - intros yf_Ticker stock_id years_eps quarters_rev d Hd.
    apply fetch_financials_inr in Hd.
    destruct Hd as (price & bvps & eps & rev & roe & gm & Hp & Hb & _ & _ & _ & _ & ->).
    exists price, bvps.
    split; [exact Hp|]. split; [exact Hb|].
    split; [reflexivity|]. split; [reflexivity|].
    rewrite calculate_snapshot. unfold truediv.
    destruct (bvps =? 0)%float; reflexivity.
  - intros float_of_string strip stock_id b1 l1 eps b2 l2 rev b3 l3 roe b4 l4 gm
      price_line book_line price bvps rest out
      Hb1 Hl1 Hb2 Hl2 Hb3 Hl3 Hb4 Hl4 Hprice Hbook w'.
    rewrite (main_after_lists float_of_string strip stock_id
               b1 l1 eps b2 l2 rev b3 l3 roe b4 l4 gm
               _ out Hb1 Hl1 Hb2 Hl2 Hb3 Hl3 Hb4 Hl4).
    rewrite (read_scalars_both_parse float_of_string _ _ _ _ _ _ Hprice Hbook).
    unfold truediv. subst w'.
    destruct (bvps =? 0)%float; reflexivity.
Qed.

(** The full ticker, whose book value per share is 80. *)
Lemma C6_providers_check_presence_only_witness :
  fetch_financials (Samples.only Samples.full_ticker) "2330" 5 4
  = inr (snapshot [5; 4; 3; 2; 6]%float Samples.good_rev [10; 15; 10; 20]%float
           [20; 20; 30; 20; 20]%float 100 80)
  /\ exists price bvps,
      bookValue (profile_of (Samples.only Samples.full_ticker) "2330") = Some bvps
      /\ calculate_indicators
           (snapshot [5; 4; 3; 2; 6]%float Samples.good_rev [10; 15; 10; 20]%float
              [20; 20; 30; 20; 20]%float 100 80)
         = if (bvps =? 0)%float
           then (inl (ZeroDivisionError "float division by zero"),
                 snapshot [5; 4; 3; 2; 6]%float Samples.good_rev [10; 15; 10; 20]%float
                   [20; 20; 30; 20; 20]%float 100 80)
           else (inr tt,
                 <["pb_ratio" := VNum (price / bvps)%float]>
                   (snapshot [5; 4; 3; 2; 6]%float Samples.good_rev
                      [10; 15; 10; 20]%float [20; 20; 30; 20; 20]%float 100 80)).
Proof.
  assert (fetch_financials (Samples.only Samples.full_ticker) "2330" 5 4
          = inr (snapshot [5; 4; 3; 2; 6]%float Samples.good_rev [10; 15; 10; 20]%float
                   [20; 20; 30; 20; 20]%float 100 80)) as Hfetch
    by (vm_compute; reflexivity).
  split; [exact Hfetch|].
  destruct (proj1 C6_providers_check_presence_only
              (Samples.only Samples.full_ticker) "2330" 5 4 _ Hfetch)
    as (price & bvps & _ & Hb & _ & _ & Hcalc).
  exists price, bvps. split; [exact Hb | exact Hcalc].
Defined.

(** C6 as it was stated fails: the fetch returns a snapshot whose book
    value per share is zero when the provider says so, and the interactive
    input accepts "0"; in both programs the division then raises
    [ZeroDivisionError], which nothing catches. *)
Lemma C6_zero_book_value_reaches_the_division :
  fetch_financials (Samples.only Samples.zero_book_ticker) "2330" 5 4
  = inr (snapshot [5; 4; 3; 2; 6]%float Samples.good_rev [10; 15; 10; 20]%float
           [20; 20; 30; 20; 20]%float 100 0)
  /\ calculate_indicators
       (snapshot [5; 4; 3; 2; 6]%float Samples.good_rev [10; 15; 10; 20]%float
          [20; 20; 30; 20; 20]%float 100 0)
     = (inl (ZeroDivisionError "float division by zero"),
        snapshot [5; 4; 3; 2; 6]%float Samples.good_rev [10; 15; 10; 20]%float
          [20; 20; 30; 20; 20]%float 100 0)
  /\ main (Samples.only Samples.zero_book_ticker) (Args "2330" 5 4)
     = ([], Uncaught (ZeroDivisionError "float division by zero"))
  /\ (Stock.main Samples.float_of_decimal Samples.strip_blanks
        (Stock.World (Samples.answers "100" "0") [])).1
     = inl (ZeroDivisionError "float division by zero").
Proof.
  repeat split; vm_compute; reflexivity.
Qed.

End ZeroBookValue.

(** ** Further properties of the analysis *)

Section Analysis.

Import Screener.

(** The evaluation is a function of the five values it looks up. *)
Lemma apply_buffett_criteria_of_lookups (d : gmap string value) :
  apply_buffett_criteria d
  = (criteria_of (d !! "eps_5y") (d !! "rev_4q") (d !! "pb_ratio")
       (d !! "roe_4q") (d !! "gm_5y"), d).
Proof.
  unfold apply_buffett_criteria, criteria_of, st_bind, getitem, st_lift, found, Py.bind.
  destruct (d !! "eps_5y") as [[x1|eps]|]; try reflexivity. simpl.
  destruct (d !! "rev_4q") as [[x2|rev]|]; try reflexivity. simpl.
  destruct (d !! "pb_ratio") as [[pb|l]|]; try reflexivity. simpl.
  destruct (d !! "roe_4q") as [[x4|roe]|]; try reflexivity. simpl.
  destruct (d !! "gm_5y") as [[x5|gm]|]; reflexivity.
Qed.

(** The criteria can be evaluated exactly on the dictionaries that hold a
    list under each of the four history keys and a number under
    ["pb_ratio"]; any other dictionary makes the evaluation raise. *)
Theorem apply_buffett_criteria_succeeds_iff :
  forall d : gmap string value,
    (exists crit, apply_buffett_criteria d = (inr crit, d)) <-> analysable d.
Proof.
  intros d. unfold analysable, apply_buffett_criteria, st_bind, getitem, st_lift.
  split.
  - intros [crit H].
    destruct (d !! "eps_5y") as [[x|eps]|]; simpl in H; try discriminate H.
    destruct (d !! "rev_4q") as [[x|rev]|]; simpl in H; try discriminate H.
    destruct (d !! "pb_ratio") as [[pb|l]|]; simpl in H; try discriminate H.
    destruct (d !! "roe_4q") as [[x|roe]|]; simpl in H; try discriminate H.
    destruct (d !! "gm_5y") as [[x|gm]|]; simpl in H; try discriminate H.
    exists eps, rev, pb, roe, gm. repeat split; reflexivity.
  - intros (eps & rev & pb & roe & gm & -> & -> & -> & -> & ->).
    eexists. reflexivity.
Qed.

(** The dictionary that the fetch returns has no price-to-book ratio yet:
    evaluating the criteria on it before [calculate_indicators] raises
    [KeyError('pb_ratio')]. *)
Theorem criteria_before_indicators_raise :
  forall (yf_Ticker : string -> ticker) stock_id years_eps quarters_rev d,
    fetch_financials yf_Ticker stock_id years_eps quarters_rev = inr d ->
    apply_buffett_criteria d = (inl (KeyError "pb_ratio"), d).
Proof.
  intros yf_Ticker stock_id years_eps quarters_rev d Hd.
  apply fetch_financials_inr in Hd.
  destruct Hd as (price & bvps & eps & rev & roe & gm & _ & _ & _ & _ & _ & _ & ->).
  reflexivity.
Qed.

Lemma criteria_before_indicators_raise_witness :
  fetch_financials (Samples.only Samples.full_ticker) "2330" 5 4
  = inr (snapshot [5; 4; 3; 2; 6]%float Samples.good_rev [10; 15; 10; 20]%float
           [20; 20; 30; 20; 20]%float 100 80)
  /\ apply_buffett_criteria
       (snapshot [5; 4; 3; 2; 6]%float Samples.good_rev [10; 15; 10; 20]%float
          [20; 20; 30; 20; 20]%float 100 80)
     = (inl (KeyError "pb_ratio"),
        snapshot [5; 4; 3; 2; 6]%float Samples.good_rev [10; 15; 10; 20]%float
          [20; 20; 30; 20; 20]%float 100 80).
Proof.
  assert (fetch_financials (Samples.only Samples.full_ticker) "2330" 5 4
          = inr (snapshot [5; 4; 3; 2; 6]%float Samples.good_rev [10; 15; 10; 20]%float
                   [20; 20; 30; 20; 20]%float 100 80)) as Hfetch
    by (vm_compute; reflexivity).
  split; [exact Hfetch|].
  exact (criteria_before_indicators_raise
           (Samples.only Samples.full_ticker) "2330" 5 4 _ Hfetch).
Defined.

(** The evaluation reads the five keys of [criteria_keys] and nothing
    else: storing anything under another key, the price and the book value
    included, changes neither the results nor the exception. *)
Theorem apply_buffett_criteria_reads_five_keys :
  forall (d : gmap string value) (key : string) (v : value),
    ~ In key criteria_keys ->
    (apply_buffett_criteria (<[key := v]> d)).1 = (apply_buffett_criteria d).1.
Proof.
  intros d key v Hkey.
  assert (forall k, In k criteria_keys -> <[key := v]> d !! k = d !! k) as Hlook.
  { intros k Hk. apply lookup_insert_ne. intros ->. apply Hkey, Hk. }
  rewrite !apply_buffett_criteria_of_lookups. cbn [fst].
  rewrite !Hlook by (simpl; tauto). reflexivity.
Qed.

Lemma apply_buffett_criteria_reads_five_keys_witness :
  ~ In "price" criteria_keys
  /\ (apply_buffett_criteria
        (<["price" := VNum 7]>
           (derived Samples.good_eps Samples.good_rev Samples.good_roe Samples.good_gm
              100 80 1.25))).1
     = (apply_buffett_criteria
          (derived Samples.good_eps Samples.good_rev Samples.good_roe Samples.good_gm
             100 80 1.25)).1.
Proof.
  assert (~ In "price" criteria_keys) as Hkey
    by (simpl; intros [H|[H|[H|[H|[H|[]]]]]]; discriminate H).
  split; [exact Hkey|].
  exact (apply_buffett_criteria_reads_five_keys _ "price" (VNum 7) Hkey).
Defined.

(** What [calculate_indicators] does to the dictionary it is given: it
    never touches a key other than ["pb_ratio"]; when it raises, the
    dictionary is as it was; when it returns, the price and the book value
    were numbers, the book value was not zero, and their quotient is what
    [data['pb_ratio']] now holds. *)
Theorem calculate_indicators_frame :
  forall d : gmap string value,
    (forall key, key <> "pb_ratio" -> (calculate_indicators d).2 !! key = d !! key)
    /\ (forall e, (calculate_indicators d).1 = inl e -> (calculate_indicators d).2 = d)
    /\ ((calculate_indicators d).1 = inr tt ->
        exists price bvps,
          d !! "price" = Some (VNum price)
          /\ d !! "bvps" = Some (VNum bvps)
          /\ (bvps =? 0)%float = false
          /\ (calculate_indicators d).2 !! "pb_ratio" = Some (VNum (price / bvps)%float)).
Proof.
  intros d. unfold calculate_indicators, st_bind, getitem, st_lift, setitem.
  destruct (d !! "price") as [[price|l]|] eqn:Hp;
    destruct (d !! "bvps") as [[bvps|l']|] eqn:Hb; simpl;
    try (split; [reflexivity | split; [reflexivity | discriminate]]).
  unfold truediv. destruct (bvps =? 0)%float eqn:Hz; simpl.
  - split; [reflexivity | split; [reflexivity | discriminate]].
  - split; [|split].
    + intros key Hkey. apply lookup_insert_ne. congruence.
    + discriminate.
    + intros _. exists price, bvps.
      split; [reflexivity|]. split; [reflexivity|]. split; [exact Hz|].
      apply lookup_insert_eq.
Qed.

Lemma calculate_indicators_of_lookups (d : gmap string value) :
  calculate_indicators d
  = match found "price" (d !! "price") with
    | inl e => (inl e, d)
    | inr price =>
        match found "bvps" (d !! "bvps") with
        | inl e => (inl e, d)
        | inr bvps =>
            match value_truediv price bvps with
            | inl e => (inl e, d)
            | inr pb_ratio => (inr tt, <["pb_ratio" := VNum pb_ratio]> d)
            end
        end
    end.
Proof.
  unfold calculate_indicators, st_bind, getitem, st_lift, setitem, found.
  destruct (d !! "price") as [price|]; [|reflexivity]. simpl.
  destruct (d !! "bvps") as [bvps|]; [|reflexivity]. simpl.
  destruct (value_truediv price bvps); reflexivity.
Qed.

(** Running [calculate_indicators] a second time changes nothing: the
    price and the book value are still there, and the same ratio is stored
    again. *)
Theorem calculate_indicators_idempotent :
  forall d : gmap string value,
    st_bind calculate_indicators (fun _ => calculate_indicators) d
    = calculate_indicators d.
Proof.
  intros d. unfold st_bind. rewrite (calculate_indicators_of_lookups d).
  destruct (found "price" (d !! "price")) as [e|price] eqn:Hp; [reflexivity|].
  destruct (found "bvps" (d !! "bvps")) as [e|bvps] eqn:Hb; [reflexivity|].
  destruct (value_truediv price bvps) as [e|pb] eqn:Hdiv; [reflexivity|].
  rewrite calculate_indicators_of_lookups.
  rewrite !lookup_insert_ne by discriminate. rewrite Hp, Hb, Hdiv.
  rewrite insert_insert_eq. reflexivity.
Qed.

End Analysis.

(** ** Further properties of the fetch *)

Section FetchShape.

Import Screener.

(** *** Lists built by functions that may raise *)

Lemma map_result_length {A B} (f : A -> result B) (l : list A) (l' : list B) :
  map_result f l = inr l' -> length l' = length l.
Proof.
  revert l'. induction l as [|x l IH]; intros l' H; simpl in H.
  - injection H as <-. reflexivity.
  - destruct (f x) as [e|y]; [discriminate|]. simpl in H.
    destruct (map_result f l) as [e|ys]; [discriminate|]. simpl in H.
    injection H as <-. simpl. rewrite (IH ys eq_refl). reflexivity.
Qed.

Lemma map_result_lookup {A B} (f : A -> result B) (l : list A) (l' : list B) :
  map_result f l = inr l' ->
  forall i x, l !! i = Some x -> exists y, f x = inr y /\ l' !! i = Some y.
Proof.
  revert l'. induction l as [|x0 l IH]; intros l' H i x Hi; [discriminate|].
  simpl in H.
  destruct (f x0) as [e|y0] eqn:Hx0; [discriminate|]. simpl in H.
  destruct (map_result f l) as [e|ys]; [discriminate|]. simpl in H.
  injection H as <-.
  destruct i as [|i]; simpl in *.
  - injection Hi as <-. exists y0. split; [exact Hx0 | reflexivity].
  - apply (IH ys eq_refl i x Hi).
Qed.

(** When it raises, the exception is that of some element. *)
Lemma map_result_inl {A B} (f : A -> result B) (l : list A) (e : exn) :
  map_result f l = inl e -> exists x, In x l /\ f x = inl e.
Proof.
  induction l as [|x l IH]; intros H; simpl in H; [discriminate|].
  destruct (f x) as [e'|y] eqn:Hx; simpl in H.
  - injection H as <-. exists x. split; [left; reflexivity | exact Hx].
  - destruct (map_result f l) as [e'|ys]; [|discriminate]. simpl in H.
    injection H as <-. destruct (IH eq_refl) as (x' & Hin & Hx').
    exists x'. split; [right; exact Hin | exact Hx'].
Qed.

(** When some element raises, the whole list raises. *)
Lemma map_result_raises {A B} (f : A -> result B) (l : list A) (i : nat) (x : A) (e : exn) :
  l !! i = Some x -> f x = inl e -> exists e', map_result f l = inl e'.
Proof.
  intros Hi Hx.
  destruct (map_result f l) as [e'|l'] eqn:H; [exists e'; reflexivity|].
  destruct (map_result_lookup f l l' H i x Hi) as (y & Hy & _). congruence.
Qed.

Lemma percent_error (x y : float) (e : exn) :
  percent x y = inl e -> e = ZeroDivisionError "float division by zero".
Proof.
  unfold percent, truediv. destruct (y =? 0)%float; simpl; [|discriminate].
  intros H. injection H as <-. reflexivity.
Qed.

(** *** The stages, when they succeed and when they fail *)

Lemma eps_history_error (p : profile) (years_eps : Z) (e : exn) :
  eps_history p years_eps = inl e -> e = ValueError "無法取得年度 EPS".
Proof.
  unfold eps_history. rewrite eps_loop_omap. simpl.
  destruct (_ <? _); [|discriminate].
  destruct (trailingEps p); [discriminate|].
  intros H. injection H as <-. reflexivity.
Qed.

Lemma eps_history_length (p : profile) (years_eps : Z) (eps : list float) :
  0 <= years_eps -> eps_history p years_eps = inr eps -> len eps = years_eps.
Proof.
  intros Hy. unfold eps_history. rewrite eps_loop_omap. simpl.
  pose proof (length_omap_le (eps_of (sharesOutstanding p))
                (slice_to (incomeStatementHistory p) years_eps)) as H1.
  pose proof (len_slice_to_le (incomeStatementHistory p) years_eps Hy) as H2.
  destruct (Z.ltb_spec (len (omap (eps_of (sharesOutstanding p))
                               (slice_to (incomeStatementHistory p) years_eps)))
              years_eps) as [Hlt|Hge].
  - destruct (trailingEps p) as [trailing|]; [|discriminate].
    intros H. injection H as <-. unfold len, Py.repeat.
    rewrite length_replicate. lia.
  - intros H. injection H as <-. unfold len in *. lia.
Qed.

Lemma revenue_history_error (qf : gmap string (list float)) (quarters_rev : Z) (e : exn) :
  revenue_history qf quarters_rev = inl e -> e = ValueError "季度營收資料不足".
Proof.
  unfold revenue_history. destruct (_ <? _); [|discriminate].
  intros H. injection H as <-. reflexivity.
Qed.

Lemma revenue_history_length (qf : gmap string (list float)) (quarters_rev : Z)
    (rev : list float) :
  0 <= quarters_rev -> revenue_history qf quarters_rev = inr rev ->
  rev = revenue_read qf quarters_rev /\ len rev = quarters_rev.
Proof.
  intros Hq. unfold revenue_history. fold (revenue_read qf quarters_rev).
  destruct (Z.ltb_spec (len (revenue_read qf quarters_rev)) quarters_rev) as [Hlt|Hge];
    [discriminate|].
  intros H. injection H as <-. split; [reflexivity|].
  assert (len (revenue_read qf quarters_rev) <= quarters_rev); [|lia].
  unfold revenue_read. destruct (qf !! "Total Revenue") as [row|].
  - apply len_slice_to_le, Hq.
  - exact Hq.
Qed.

Lemma roe_history_error (p : profile) (qf : gmap string (list float)) (quarters_rev : Z)
    (e : exn) :
  roe_history p qf quarters_rev = inl e -> e = ValueError "無法取得季度 ROE 資料".
Proof.
  rewrite roe_history_spec.
  destruct (roe_path_accepted p qf quarters_rev); [discriminate|].
  destruct (py_or _ _); [discriminate|].
  destruct (0 <? quarters_rev); [|discriminate].
  intros H. injection H as <-. reflexivity.
Qed.

Lemma roe_history_length (p : profile) (qf : gmap string (list float)) (quarters_rev : Z)
    (roe : list float) :
  0 <= quarters_rev -> roe_history p qf quarters_rev = inr roe -> len roe = quarters_rev.
Proof.
  intros Hq. rewrite roe_history_spec.
  destruct (roe_path_accepted p qf quarters_rev) eqn:Hacc.
  - intros H. injection H as <-. apply len_roe_values, Hacc.
  - destruct (py_or _ _) as [f|].
    + intros H. injection H as <-. unfold len, Py.repeat.
      rewrite length_replicate. lia.
    + destruct (Z.ltb_spec 0 quarters_rev) as [Hpos|Hneg]; [discriminate|].
      intros H. injection H as <-. unfold len. simpl. lia.
Qed.

Lemma gross_margin_history_error (fin : gmap string (list float)) (years_eps : Z) (e : exn) :
  gross_margin_history fin years_eps = inl e ->
  e = ValueError "年度毛利率資料不足" \/ e = ValueError "無法取得年度毛利率資料"
  \/ e = ZeroDivisionError "float division by zero".
Proof.
  unfold gross_margin_history.
  destruct (fin !! "Gross Profit") as [gp|];
    [|intros H; injection H as <-; right; left; reflexivity].
  destruct (fin !! "Total Revenue") as [tr|];
    [|intros H; injection H as <-; right; left; reflexivity].
  destruct (_ || _).
  - intros H. injection H as <-. left. reflexivity.
  - intros H. apply map_result_inl in H. destruct H as ([g t] & _ & H).
    right. right. apply (percent_error g t e H).
Qed.

Lemma gross_margin_history_length (fin : gmap string (list float)) (years_eps : Z)
    (gm : list float) :
  0 <= years_eps -> gross_margin_history fin years_eps = inr gm -> len gm = years_eps.
Proof.
  intros Hy. unfold gross_margin_history.
  destruct (fin !! "Gross Profit") as [gp|]; [|discriminate].
  destruct (fin !! "Total Revenue") as [tr|]; [|discriminate].
  pose proof (len_slice_to_le gp years_eps Hy) as H1.
  pose proof (len_slice_to_le tr years_eps Hy) as H2.
  destruct (Z.ltb_spec (len (slice_to gp years_eps)) years_eps) as [|H3];
    [discriminate|].
  destruct (Z.ltb_spec (len (slice_to tr years_eps)) years_eps) as [|H4];
    [discriminate|].
  simpl. intros H. apply map_result_length in H.
  unfold len in *. rewrite H, length_zip. lia.
Qed.

(** Every history of a snapshot that the fetch returns has the length of
    its window, when the two windows are not negative: [years_eps] EPS and
    gross-margin values, [quarters_rev] revenue and ROE values. *)
Theorem fetch_financials_lengths :
  forall (yf_Ticker : string -> ticker) stock_id years_eps quarters_rev d,
    0 <= years_eps -> 0 <= quarters_rev ->
    fetch_financials yf_Ticker stock_id years_eps quarters_rev = inr d ->
    exists eps rev roe gm,
      d !! "eps_5y" = Some (VList eps) /\ len eps = years_eps
      /\ d !! "rev_4q" = Some (VList rev) /\ len rev = quarters_rev
      /\ d !! "roe_4q" = Some (VList roe) /\ len roe = quarters_rev
      /\ d !! "gm_5y" = Some (VList gm) /\ len gm = years_eps.
Proof.
  intros yf_Ticker stock_id years_eps quarters_rev d Hy Hq Hd.
  apply fetch_financials_inr in Hd.
  destruct Hd as (price & bvps & eps & rev & roe & gm & _ & _ & He & Hr & Ho & Hg & ->).
  exists eps, rev, roe, gm.
  split; [reflexivity|]. split; [apply (eps_history_length _ _ _ Hy He)|].
  split; [reflexivity|]. split; [apply (revenue_history_length _ _ _ Hq Hr)|].
  split; [reflexivity|]. split; [apply (roe_history_length _ _ _ _ Hq Ho)|].
  split; [reflexivity|]. apply (gross_margin_history_length _ _ _ Hy Hg).
Qed.

(** The ticker whose history is too short, fetched with the windows 5 and
    4: the EPS history has five values all the same. *)
Lemma fetch_financials_lengths_witness :
  0 <= 5 /\ 0 <= 4
  /\ fetch_financials (Samples.only Samples.short_history_ticker) "2330" 5 4
     = inr (snapshot [4.5; 4.5; 4.5; 4.5; 4.5]%float Samples.good_rev
              [10; 15; 10; 20]%float [20; 20; 30; 20; 20]%float 100 80)
  /\ exists eps rev roe gm,
      snapshot [4.5; 4.5; 4.5; 4.5; 4.5]%float Samples.good_rev
        [10; 15; 10; 20]%float [20; 20; 30; 20; 20]%float 100 80 !! "eps_5y"
      = Some (VList eps) /\ len eps = 5
      /\ snapshot [4.5; 4.5; 4.5; 4.5; 4.5]%float Samples.good_rev
           [10; 15; 10; 20]%float [20; 20; 30; 20; 20]%float 100 80 !! "rev_4q"
         = Some (VList rev) /\ len rev = 4
      /\ snapshot [4.5; 4.5; 4.5; 4.5; 4.5]%float Samples.good_rev
           [10; 15; 10; 20]%float [20; 20; 30; 20; 20]%float 100 80 !! "roe_4q"
         = Some (VList roe) /\ len roe = 4
      /\ snapshot [4.5; 4.5; 4.5; 4.5; 4.5]%float Samples.good_rev
           [10; 15; 10; 20]%float [20; 20; 30; 20; 20]%float 100 80 !! "gm_5y"
         = Some (VList gm) /\ len gm = 5.
Proof.
  assert (fetch_financials (Samples.only Samples.short_history_ticker) "2330" 5 4
          = inr (snapshot [4.5; 4.5; 4.5; 4.5; 4.5]%float Samples.good_rev
                   [10; 15; 10; 20]%float [20; 20; 30; 20; 20]%float 100 80)) as Hfetch
    by (vm_compute; reflexivity).
  assert (0 <= 5) as H5 by lia. assert (0 <= 4) as H4 by lia.
  split; [exact H5|]. split; [exact H4|]. split; [exact Hfetch|].
  exact (fetch_financials_lengths (Samples.only Samples.short_history_ticker)
           "2330" 5 4 _ H5 H4 Hfetch).
Defined.

(** The fetch raises nothing but its own six [ValueError]s and the
    [ZeroDivisionError] of a division: no [KeyError], no [TypeError]. *)
Theorem fetch_financials_errors :
  forall (yf_Ticker : string -> ticker) stock_id years_eps quarters_rev e,
    fetch_financials yf_Ticker stock_id years_eps quarters_rev = inl e ->
    fetch_error e.
Proof.
  intros yf_Ticker stock_id years_eps quarters_rev e.
  unfold fetch_financials, fetch_error, fetch_messages.
  set (t := yf_Ticker (stock_id +:+ ".TW")).
  destruct (regularMarketPrice (info t)) as [price|];
    [|intros H; injection H as <-; left; eexists; split; [reflexivity | simpl; tauto]].
  destruct (bookValue (info t)) as [bvps|];
    [|intros H; injection H as <-; left; eexists; split; [reflexivity | simpl; tauto]].
  destruct (eps_history (info t) years_eps) as [e1|eps] eqn:He; simpl.
  { intros H. injection H as <-. apply eps_history_error in He. subst e1.
    left. eexists. split; [reflexivity | simpl; tauto]. }
  destruct (revenue_history _ quarters_rev) as [e2|rev] eqn:Hr; simpl.
  { intros H. injection H as <-. apply revenue_history_error in Hr. subst e2.
    left. eexists. split; [reflexivity | simpl; tauto]. }
  destruct (roe_history _ _ quarters_rev) as [e3|roe] eqn:Ho; simpl.
  { intros H. injection H as <-. apply roe_history_error in Ho. subst e3.
    left. eexists. split; [reflexivity | simpl; tauto]. }
  destruct (gross_margin_history _ years_eps) as [e4|gm] eqn:Hg; simpl; [|discriminate].
  intros H. injection H as <-. apply gross_margin_history_error in Hg.
  destruct Hg as [-> | [-> | ->]].
  - left. eexists. split; [reflexivity | simpl; tauto].
  - left. eexists. split; [reflexivity | simpl; tauto].
  - right. reflexivity.
Qed.

Lemma fetch_financials_errors_witness :
  fetch_financials (Samples.only Samples.no_gross_profit_ticker) "2330" 5 4
  = inl (ValueError "無法取得年度毛利率資料")
  /\ fetch_error (ValueError "無法取得年度毛利率資料").
Proof.
  assert (fetch_financials (Samples.only Samples.no_gross_profit_ticker) "2330" 5 4
          = inl (ValueError "無法取得年度毛利率資料")) as Hfetch
    by (vm_compute; reflexivity).
  split; [exact Hfetch|].
  exact (fetch_financials_errors (Samples.only Samples.no_gross_profit_ticker)
           "2330" 5 4 _ Hfetch).
Defined.

(** *** Gross margin *)

(** When the gross-margin stage succeeds, no yearly total revenue of the
    window is zero, and each margin is the gross profit of its year over
    the total revenue of that year, times 100. *)
Theorem gross_margin_history_values :
  forall (fin : gmap string (list float)) (years_eps : Z) (gm : list float),
    gross_margin_history fin years_eps = inr gm ->
    exists gp tr,
      fin !! "Gross Profit" = Some gp
      /\ fin !! "Total Revenue" = Some tr
      /\ forall (i : nat) (g t : float),
          slice_to gp years_eps !! i = Some g ->
          slice_to tr years_eps !! i = Some t ->
          (t =? 0)%float = false /\ gm !! i = Some (g / t * 100)%float.
Proof.
  intros fin years_eps gm. unfold gross_margin_history.
  destruct (fin !! "Gross Profit") as [gp|]; [|discriminate].
  destruct (fin !! "Total Revenue") as [tr|]; [|discriminate].
  destruct (_ || _); [discriminate|].
  intros H. exists gp, tr. split; [reflexivity|]. split; [reflexivity|].
  intros i g t Hg Ht.
  assert (zip (slice_to gp years_eps) (slice_to tr years_eps) !! i = Some (g, t)) as Hz.
  { apply lookup_zip_with_Some. exists g, t. auto. }
  destruct (map_result_lookup _ _ _ H i (g, t) Hz) as (y & Hy & Hi).
  simpl in Hy. unfold percent, truediv in Hy.
  destruct (t =? 0)%float; [discriminate|]. simpl in Hy.
  injection Hy as <-. split; [reflexivity | exact Hi].
Qed.

Lemma gross_margin_history_values_witness :
  gross_margin_history (financials Samples.full_ticker) 5
  = inr [20; 20; 30; 20; 20]%float
  /\ exists gp tr,
      financials Samples.full_ticker !! "Gross Profit" = Some gp
      /\ financials Samples.full_ticker !! "Total Revenue" = Some tr
      /\ forall (i : nat) (g t : float),
          slice_to gp 5 !! i = Some g ->
          slice_to tr 5 !! i = Some t ->
          (t =? 0)%float = false
          /\ [20; 20; 30; 20; 20]%float !! i = Some (g / t * 100)%float.
Proof.
  assert (gross_margin_history (financials Samples.full_ticker) 5
          = inr [20; 20; 30; 20; 20]%float) as H by (vm_compute; reflexivity).
  split; [exact H|].
  exact (gross_margin_history_values (financials Samples.full_ticker) 5 _ H).
Defined.

(** A yearly total revenue of zero within the window makes the
    gross-margin stage raise [ZeroDivisionError], and the fetch fail, when
    both rows are there and long enough. *)
Theorem zero_total_revenue_raises :
  forall (yf_Ticker : string -> ticker) stock_id years_eps quarters_rev
         (gp tr : list float) (i : nat) (g t : float),
    financials (yf_Ticker (stock_id +:+ ".TW")) !! "Gross Profit" = Some gp ->
    financials (yf_Ticker (stock_id +:+ ".TW")) !! "Total Revenue" = Some tr ->
    years_eps <= len (slice_to gp years_eps) ->
    years_eps <= len (slice_to tr years_eps) ->
    slice_to gp years_eps !! i = Some g ->
    slice_to tr years_eps !! i = Some t ->
    (t =? 0)%float = true ->
    gross_margin_history (financials (yf_Ticker (stock_id +:+ ".TW"))) years_eps
    = inl (ZeroDivisionError "float division by zero")
    /\ exists e, fetch_financials yf_Ticker stock_id years_eps quarters_rev = inl e.
Proof.
  intros yf_Ticker stock_id years_eps quarters_rev gp tr i g t Hgp Htr Hlg Hlt Hg Ht Hz.
  assert (gross_margin_history (financials (yf_Ticker (stock_id +:+ ".TW"))) years_eps
          = inl (ZeroDivisionError "float division by zero")) as Hstage.
  { unfold gross_margin_history. rewrite Hgp, Htr.
    destruct (Z.ltb_spec (len (slice_to gp years_eps)) years_eps) as [|_]; [lia|].
    destruct (Z.ltb_spec (len (slice_to tr years_eps)) years_eps) as [|_]; [lia|].
    simpl.
    assert (zip (slice_to gp years_eps) (slice_to tr years_eps) !! i = Some (g, t)) as Hi.
    { apply lookup_zip_with_Some. exists g, t. auto. }
    assert (percent g t = inl (ZeroDivisionError "float division by zero")) as Hp
      by (unfold percent, truediv; rewrite Hz; reflexivity).
    destruct (map_result_raises (fun '(g, t) => percent g t) _ i (g, t) _ Hi Hp)
      as [e He].
    rewrite He. f_equal.
    apply map_result_inl in He. destruct He as ([g' t'] & _ & He).
    apply (percent_error g' t' e He). }
  split; [exact Hstage|].
  apply fetch_financials_raises. right. right. right. eexists. exact Hstage.
Qed.

Lemma zero_total_revenue_raises_witness :
  slice_to [10; 10; 0; 10; 10]%float 5 !! 2%nat = Some 0%float
  /\ (0 =? 0)%float = true
  /\ gross_margin_history (financials Samples.zero_revenue_ticker) 5
     = inl (ZeroDivisionError "float division by zero")
  /\ exists e,
      fetch_financials (Samples.only Samples.zero_revenue_ticker) "2330" 5 4 = inl e.
Proof.
  split; [reflexivity|]. split; [reflexivity|].
  refine (zero_total_revenue_raises (Samples.only Samples.zero_revenue_ticker)
            "2330" 5 4 [2; 2; 3; 2; 2]%float [10; 10; 0; 10; 10]%float 2
            3%float 0%float eq_refl eq_refl _ _ eq_refl eq_refl eq_refl);
    vm_compute; discriminate.
Defined.

(** *** The preferred EPS path *)

Lemma omap_all_kept {A B} (f : A -> option B) (l : list A) :
  (forall i x, l !! i = Some x -> is_Some (f x)) ->
  length (omap f l) = length l
  /\ forall i x y, l !! i = Some x -> f x = Some y -> omap f l !! i = Some y.
Proof.
  unfold omap. induction l as [|x0 l IH]; intros Hall.
  - split; [reflexivity | intros i x y Hi; discriminate].
  - destruct (IH (fun i x Hi => Hall (S i) x Hi)) as [IHlen IHlook].
    destruct (Hall 0%nat x0 eq_refl) as [y0 Hy0].
    simpl. rewrite Hy0. simpl. split; [rewrite IHlen; reflexivity|].
    intros [|i] x y Hi Hx; simpl in *.
    + injection Hi as <-. congruence.
    + apply (IHlook i x y Hi Hx).
Qed.

(** When the history holds at least [years_eps] records, the shares
    outstanding are present and not zero, and the net income of each of
    the first [years_eps] records is present and not zero, the EPS history
    is the net income of each of these records over the shares, in order,
    and the trailing EPS of the profile plays no part. *)
Theorem eps_history_computed :
  forall (p : profile) (years_eps : Z) (shares : float),
    0 <= years_eps ->
    years_eps <= len (incomeStatementHistory p) ->
    sharesOutstanding p = Some shares ->
    truthy shares = true ->
    (forall (i : nat) rec,
        Z.of_nat i < years_eps -> incomeStatementHistory p !! i = Some rec ->
        exists ni, netIncome_raw rec = Some ni /\ truthy ni = true) ->
    exists eps,
      eps_history p years_eps = inr eps
      /\ len eps = years_eps
      /\ forall (i : nat) rec ni,
          Z.of_nat i < years_eps -> incomeStatementHistory p !! i = Some rec ->
          netIncome_raw rec = Some ni ->
          eps !! i = Some (ni / shares)%float.
Proof.
  intros p years_eps shares Hy Hlen Hshares Htruthy Hrecs.
  set (window := slice_to (incomeStatementHistory p) years_eps).
  assert (window = take (Z.to_nat years_eps) (incomeStatementHistory p)) as Hwin.
  { unfold window, slice_to. destruct (Z.leb_spec 0 years_eps); [reflexivity | lia]. }
  assert (forall i rec, window !! i = Some rec ->
            Z.of_nat i < years_eps /\ incomeStatementHistory p !! i = Some rec) as Hin.
  { intros i rec Hi. rewrite Hwin in Hi. apply lookup_take_Some in Hi.
    destruct Hi as [Hi Hlt]. split; [lia | exact Hi]. }
  assert (length window = Z.to_nat years_eps) as Hwlen.
  { rewrite Hwin, length_take. unfold len in Hlen. lia. }
  destruct (omap_all_kept (eps_of (Some shares)) window) as [Hklen Hklook].
  { intros i rec Hi. destruct (Hin i rec Hi) as [Hlt Hrec].
    destruct (Hrecs i rec Hlt Hrec) as (ni & Hni & Hnz).
    unfold eps_of. rewrite Hni, Hnz, Htruthy. simpl. eexists. reflexivity. }
  exists (omap (eps_of (Some shares)) window).
  assert (len (omap (eps_of (Some shares)) window) = years_eps) as Hl
    by (unfold len; rewrite Hklen, Hwlen; lia).
  split; [|split].
  - unfold eps_history. rewrite Hshares. fold window. rewrite eps_loop_omap. simpl.
    rewrite Hl, Z.ltb_irrefl. reflexivity.
  - exact Hl.
  - intros i rec ni Hlt Hrec Hni.
    apply (Hklook i rec).
    + rewrite Hwin. apply lookup_take_Some. split; [exact Hrec | lia].
    + destruct (Hrecs i rec Hlt Hrec) as (ni' & Hni' & Hnz).
      assert (ni' = ni) as -> by congruence.
      unfold eps_of. rewrite Hni, Hnz, Htruthy. reflexivity.
Qed.

Lemma eps_history_computed_witness :
  0 <= 5
  /\ 5 <= len (incomeStatementHistory (info Samples.full_ticker))
  /\ truthy 10 = true
  /\ exists eps,
      eps_history (info Samples.full_ticker) 5 = inr eps
      /\ len eps = 5
      /\ forall (i : nat) rec ni,
          Z.of_nat i < 5 -> incomeStatementHistory (info Samples.full_ticker) !! i = Some rec ->
          netIncome_raw rec = Some ni ->
          eps !! i = Some (ni / 10)%float.
Proof.
  assert (0 <= 5) as H0 by lia.
  assert (5 <= len (incomeStatementHistory (info Samples.full_ticker))) as H1
    by (vm_compute; discriminate).
  assert (truthy 10 = true) as H2 by reflexivity.
  split; [exact H0|]. split; [exact H1|]. split; [exact H2|].
  refine (eps_history_computed (info Samples.full_ticker) 5 10%float H0 H1 eq_refl H2 _).
  intros i rec Hi Hrec.
  destruct i as [|[|[|[|[|i]]]]]; simpl in Hrec; try discriminate Hrec;
    injection Hrec as <-; eexists; split; reflexivity.
Defined.

(** *** Windows below zero *)

(** A negative window passes every length check: the EPS stage keeps what
    it computed and never falls back, the revenue stage returns the row
    without its last entries, the ROE history is empty whatever the
    profile holds, and the gross-margin stage goes on to the divisions.
    No stage raises for want of data. *)
Theorem negative_windows_pass_every_check :
  forall (p : profile) (qf fin : gmap string (list float)) (years_eps quarters_rev : Z),
    years_eps < 0 -> quarters_rev < 0 ->
    eps_history p years_eps
    = inr (omap (eps_of (sharesOutstanding p))
             (slice_to (incomeStatementHistory p) years_eps))
    /\ revenue_history qf quarters_rev = inr (revenue_read qf quarters_rev)
    /\ roe_history p qf quarters_rev = inr []
    /\ forall gp tr,
        fin !! "Gross Profit" = Some gp -> fin !! "Total Revenue" = Some tr ->
        gross_margin_history fin years_eps
        = map_result (fun '(g, t) => percent g t)
            (zip (slice_to gp years_eps) (slice_to tr years_eps)).
Proof.
  intros p qf fin years_eps quarters_rev Hy Hq.
  split; [|split; [|split]].
  - unfold eps_history. rewrite eps_loop_omap. simpl.
    destruct (Z.ltb_spec (len (omap (eps_of (sharesOutstanding p))
                                 (slice_to (incomeStatementHistory p) years_eps)))
                years_eps) as [Hlt|_]; [unfold len in Hlt; lia | reflexivity].
  - unfold revenue_history. fold (revenue_read qf quarters_rev).
    destruct (Z.ltb_spec (len (revenue_read qf quarters_rev)) quarters_rev) as [Hlt|_];
      [unfold len in Hlt; lia | reflexivity].
  - rewrite roe_history_spec.
    assert (roe_path_accepted p qf quarters_rev = false) as ->.
    { unfold roe_path_accepted.
      destruct (qf !! "Net Income") as [row|]; [|reflexivity].
      destruct (totalStockholderEquity p) as [equity|]; [|reflexivity].
      destruct (Z.eqb_spec (len (slice_to row quarters_rev)) quarters_rev) as [Heq|_];
        [unfold len in Heq; lia | apply andb_false_r]. }
    destruct (py_or _ _) as [f|].
    + unfold Py.repeat. replace (Z.to_nat quarters_rev) with 0%nat by lia. reflexivity.
    + destruct (Z.ltb_spec 0 quarters_rev); [lia | reflexivity].
  - intros gp tr Hgp Htr. unfold gross_margin_history. rewrite Hgp, Htr.
    destruct (Z.ltb_spec (len (slice_to gp years_eps)) years_eps) as [Hlt|_];
      [unfold len in Hlt; lia|].
    destruct (Z.ltb_spec (len (slice_to tr years_eps)) years_eps) as [Hlt|_];
      [unfold len in Hlt; lia|].
    reflexivity.
Qed.

(** The full ticker with the windows -1 and -1: four EPS values, three
    quarters of revenue, no ROE at all. *)
Lemma negative_windows_pass_every_check_witness :
  -1 < 0
  /\ eps_history (info Samples.full_ticker) (-1) = inr [5; 4; 3; 2]%float
  /\ revenue_history (quarterly_financials Samples.full_ticker) (-1) = inr [2; 3; 2]%float
  /\ roe_history (info Samples.full_ticker) (quarterly_financials Samples.full_ticker) (-1)
     = inr [].
Proof.
  assert (-1 < 0) as H by lia.
  destruct (negative_windows_pass_every_check (info Samples.full_ticker)
              (quarterly_financials Samples.full_ticker)
              (financials Samples.full_ticker) (-1) (-1) H H)
    as (H1 & H2 & H3 & _).
  split; [exact H|]. split; [exact H1|]. split; [exact H2 | exact H3].
Defined.

(** *** The fallback ROE figure *)

(** When the computed ROE path is not accepted and the window is positive:
    a trailing ROE that is present and not zero fills the window, whatever
    the other figure is; a trailing ROE of zero counts as missing, and the
    window is filled with [returnOnEquity], the fetch stage raising when
    that one is missing. *)
Theorem roe_fallback_precedence :
  forall (p : profile) (qf : gmap string (list float)) (quarters_rev : Z),
    roe_path_accepted p qf quarters_rev = false ->
    0 < quarters_rev ->
    (forall trailing,
        trailingReturnOnEquity p = Some trailing -> truthy trailing = true ->
        roe_history p qf quarters_rev = inr (Py.repeat trailing quarters_rev))
    /\ (zero_or_missing (trailingReturnOnEquity p) ->
        roe_history p qf quarters_rev
        = match returnOnEquity p with
          | Some fallback_roe => inr (Py.repeat fallback_roe quarters_rev)
          | None => inl (ValueError "無法取得季度 ROE 資料")
          end).
Proof.
  intros p qf quarters_rev Hacc Hq.
  rewrite roe_history_spec, Hacc.
  destruct (Z.ltb_spec 0 quarters_rev) as [_|]; [|lia].
  split.
  - intros trailing Ht Hnz. unfold py_or, truthy_opt. rewrite Ht, Hnz. reflexivity.
  - intros Hzero.
    assert (truthy_opt (trailingReturnOnEquity p) = false) as Hfalse.
    { destruct Hzero as [->|(x & -> & Hx)]; [reflexivity|].
      unfold truthy_opt, truthy. rewrite Hx. reflexivity. }
    unfold py_or. rewrite Hfalse. reflexivity.
Qed.

(** A trailing ROE of zero beside a [returnOnEquity] of 12.3, no quarterly
    table, a window of 4. *)
Lemma roe_fallback_precedence_witness :
  zero_or_missing (Some 0%float)
  /\ roe_history (Profile None None None [] None None (Some 0%float)
                    (Some Samples.roe_12_3)) ∅ 4
     = inr [Samples.roe_12_3; Samples.roe_12_3; Samples.roe_12_3; Samples.roe_12_3].
Proof.
  assert (zero_or_missing (Some 0%float)) as Hz
    by (right; exists 0%float; split; reflexivity).
  split; [exact Hz|].
  assert (0 < 4) as H4 by lia.
  exact (proj2 (roe_fallback_precedence
                  (Profile None None None [] None None (Some 0%float)
                     (Some Samples.roe_12_3)) ∅ 4 eq_refl H4) Hz).
Defined.

End FetchShape.

(** ** Further properties of the output and of [main] in [test.py] *)

Section Report.

Import Screener.

Lemma some_false (crit : list (string * bool)) :
  ~ Forall (fun r => r.2 = true) crit <-> Exists (fun r => r.2 = false) crit.
Proof.
  induction crit as [|[desc ok] crit IH].
  - split; [intros H; exfalso; apply H; constructor | intros H; inversion H].
  - split.
    + intros H. destruct ok.
      * apply Exists_cons_tl, IH. intros HF. apply H. constructor; [reflexivity | exact HF].
      * apply Exists_cons_hd. reflexivity.
    + intros H HF. inversion HF as [|? ? Hok Hrest]; subst. simpl in Hok.
      inversion H as [? ? Hhd|? ? Htl]; subst; simpl in *.
      * congruence.
      * apply IH in Htl. apply Htl, Hrest.
Qed.

(** Whatever the criteria results, five of them or not: [display_results]
    prints a header, one line per result in order, and one verdict, which
    is the "recommended" one exactly when no result is false, so also
    when there is no result at all. *)
Theorem display_results_shape :
  forall (stock_id : string) (criteria_results : list (string * bool)),
    length (display_results stock_id criteria_results)
    = S (S (length criteria_results))
    /\ display_results stock_id criteria_results !! 0%nat
       = Some (LF +:+ "=== " +:+ stock_id +:+ " 篩選結果 ===")
    /\ (forall (i : nat) desc ok,
          criteria_results !! i = Some (desc, ok) ->
          display_results stock_id criteria_results !! S i
          = Some (desc +:+ ": " +:+ mark ok))
    /\ (last (display_results stock_id criteria_results) = Some invest_line
        <-> Forall (fun r => r.2 = true) criteria_results)
    /\ (last (display_results stock_id criteria_results) = Some avoid_line
        <-> Exists (fun r => r.2 = false) criteria_results).
Proof.
  intros stock_id crit. unfold display_results.
  assert (all id (crit.*2) = true <-> Forall (fun r => r.2 = true) crit) as Hall.
  { rewrite all_Forall. unfold id. rewrite Forall_fmap. reflexivity. }
  split; [|split; [|split]].
  - rewrite !length_app, length_map. simpl. lia.
  - reflexivity.
  - intros i desc ok Hi. simpl.
    rewrite lookup_app_l by (rewrite length_map; apply lookup_lt_Some in Hi; exact Hi).
    rewrite list_lookup_fmap, Hi. reflexivity.
  - rewrite !app_assoc, last_snoc.
    destruct (chosen_line (all id (crit.*2)) _ invest_line avoid_line
                invest_not_avoid Hall) as [H1 H2].
    split; [exact H1|]. rewrite H2. apply some_false.
Qed.

(** A run of [main] ends in one of three ways, and in no other.  The
    fetch raised: one line reports the error and the exit status is 1.
    The fetch returned and the book value is not zero: the five results
    and the verdict are printed and the run ends normally.  The fetch
    returned a book value of zero: nothing is printed and the
    [ZeroDivisionError] of the ratio ends the run.  The analysis never
    raises [KeyError] or [TypeError] on what the fetch returns. *)
Theorem main_endings :
  forall (yf_Ticker : string -> ticker) (a : args),
    (exists e,
        fetch_financials yf_Ticker (stock_id a) (years_eps a) (quarters_rev a) = inl e
        /\ fetch_error e
        /\ main yf_Ticker a = (["資料擷取或處理失敗： " +:+ str_exn e], Exit 1))
    \/ (exists d bvps crit,
          fetch_financials yf_Ticker (stock_id a) (years_eps a) (quarters_rev a) = inr d
          /\ bookValue (profile_of yf_Ticker (stock_id a)) = Some bvps
          /\ (bvps =? 0)%float = false
          /\ length crit = 5%nat
          /\ main yf_Ticker a = (display_results (stock_id a) crit, Exit 0))
    \/ (exists d bvps,
          fetch_financials yf_Ticker (stock_id a) (years_eps a) (quarters_rev a) = inr d
          /\ bookValue (profile_of yf_Ticker (stock_id a)) = Some bvps
          /\ (bvps =? 0)%float = true
          /\ main yf_Ticker a
             = ([], Uncaught (ZeroDivisionError "float division by zero"))).
Proof.
  intros yf_Ticker a. unfold main.
  destruct (fetch_financials yf_Ticker (stock_id a) (years_eps a) (quarters_rev a))
    as [e|d] eqn:Hfetch.
  - left. exists e. split; [reflexivity|]. split; [|reflexivity].
    apply (fetch_financials_errors _ _ _ _ _ Hfetch).
  - right. pose proof Hfetch as Hd. apply fetch_financials_inr in Hd.
    destruct Hd as (price & bvps & eps & rev & roe & gm & _ & Hb & _ & _ & _ & _ & ->).
    unfold st_bind. rewrite calculate_snapshot. unfold truediv.
    destruct (bvps =? 0)%float eqn:Hz; simpl.
    + right. exists (snapshot eps rev roe gm price bvps), bvps.
      split; [reflexivity|]. split; [exact Hb|]. split; [exact Hz | reflexivity].
    + left. rewrite apply_derived.
      eexists _, bvps, _.
      split; [reflexivity|]. split; [exact Hb|]. split; [exact Hz|].
      split; [|reflexivity]. reflexivity.
Qed.

End Report.

(** ** Further properties of the interactive program *)

Section InteractiveShape.

Import Stock.

Variable float_of_string : string -> option float.
Variable strip : string -> string.

Local Abbreviation get_float_list := (get_float_list float_of_string strip).
Local Abbreviation read_scalars := (read_scalars float_of_string).
Local Abbreviation rejected := (rejected float_of_string strip).
Local Abbreviation parses_to := (parses_to float_of_string strip).

(** When [get_float_list] returns, the list has exactly [count] values,
    the values of the tokens of the last line read, and every line read
    before it was rejected; it raises nothing but the [EOFError] of an
    input that ends before a valid line, never a [ValueError]. *)
Theorem get_float_list_returns_count_values :
  forall (prompt : string) (count : Z) (w : world),
    match get_float_list prompt count w with
    | (inr values, w') =>
        len values = count
        /\ exists bad line,
            stdin w = bad ++ line :: stdin w'
            /\ Forall (rejected count) bad
            /\ parses_to line values
    | (inl e, w') =>
        e = EOFError /\ stdin w' = [] /\ Forall (rejected count) (stdin w)
    end.
Proof.
  intros prompt count [lines out].
  destruct (lines_until_valid float_of_string strip count lines)
    as [Hbad|(bad & good & values & rest & -> & Hbad & Hgood)].
  - rewrite (get_float_list_eof float_of_string strip prompt count lines out Hbad).
    repeat split. exact Hbad.
  - rewrite (get_float_list_retries float_of_string strip prompt count bad good values
               rest out Hbad Hgood).
    destruct Hgood as [Hparse Hlen]. split; [exact Hlen|].
    exists bad, good. repeat split; assumption.
Qed.

(** A line has at least one token. *)
Lemma split_nonempty (sep : ascii) (s : string) : (1 <= length (split sep s))%nat.
Proof.
  induction s as [|c s IH]; simpl; [lia|].
  destruct (Ascii.eqb c sep); simpl; [lia|].
  destruct (split sep s); simpl in *; lia.
Qed.

(** With an expected count of zero or less no line is ever accepted:
    every line is answered by the error message, and the call ends only
    with the input, by [EOFError]. *)
Theorem get_float_list_count_below_one :
  forall (prompt : string) (count : Z) (w : world),
    count <= 0 ->
    get_float_list prompt count w
    = (inl EOFError,
       World [] (stdout w ++ retries prompt count (stdin w)
                          ++ [Prompt (list_prompt prompt count)])).
Proof.
  intros prompt count [lines out] Hcount. cbn [stdin stdout].
  apply get_float_list_eof.
  apply Forall_forall. intros line _. right.
  pose proof (split_nonempty "," line) as H. unfold len. lia.
Qed.

(** *** What [report] and [read_scalars] can do *)

Lemma for_each_print (conds : list (string * bool)) (w : world) :
  for_each conds (fun '(desc, passed) => print (desc +:+ ": " +:+ mark passed)) w
  = (inr tt,
     World (stdin w)
       (stdout w
        ++ map (fun '(desc, passed) => Print (desc +:+ ": " +:+ mark passed)) conds)).
Proof.
  revert w. induction conds as [|[desc passed] conds IH]; intros [inp out]; simpl.
  - rewrite app_nil_r. reflexivity.
  - unfold io_bind, print at 1. cbn [stdin stdout]. rewrite IH. cbn [stdin stdout].
    rewrite <- app_assoc. reflexivity.
Qed.

(** Whatever the conditions, five of them or not: [report] reads nothing
    and raises nothing; it prints a header, one line per condition in
    order, and one verdict, the "recommended" one exactly when no
    condition is false. *)
Theorem report_shape :
  forall (stock_id : string) (conds : list (string * bool)) (w : world),
    report stock_id conds w
    = (inr tt,
       World (stdin w)
         (stdout w
          ++ [Print (LF +:+ "=== 評估結果 ===")]
          ++ map (fun '(desc, passed) => Print (desc +:+ ": " +:+ mark passed)) conds
          ++ [Print (if forallb snd conds then invest_line stock_id
                     else avoid_line stock_id)])).
Proof.
  intros stock_id conds [inp out]. unfold report.
  unfold io_bind at 1. unfold print at 1. cbn [stdin stdout].
  unfold io_bind at 1. rewrite for_each_print. cbn [stdin stdout].
  assert (all id (conds.*2) = forallb snd conds) as ->.
  { unfold all. induction conds as [|[desc passed] conds IH]; [reflexivity|].
    change (passed && forallb id (conds.*2) = passed && forallb snd conds).
    rewrite IH. reflexivity. }
  destruct (forallb snd conds); unfold print; cbn [stdin stdout];
    rewrite <- !app_assoc; reflexivity.
Qed.

Lemma read_scalars_result (w : world) :
  (exists w', read_scalars w = (inl EOFError, w'))
  \/ (exists o w', read_scalars w = (inr o, w')).
Proof.
  destruct w as [[|l1 lines] out];
    unfold Stock.read_scalars, try_except_ValueError, io_bind, input, float_; simpl.
  - left. eexists. reflexivity.
  - destruct (float_of_string l1); simpl.
    + destruct lines as [|l2 lines]; simpl.
      * left. eexists. reflexivity.
      * destruct (float_of_string l2); simpl; right; eexists _, _; reflexivity.
    + right. eexists _, _. reflexivity.
Qed.

Lemma get_float_list_result (prompt : string) (count : Z) (w : world) :
  (exists w', get_float_list prompt count w = (inl EOFError, w'))
  \/ (exists values w', get_float_list prompt count w = (inr values, w')).
Proof.
  pose proof (get_float_list_returns_count_values prompt count w) as H.
  destruct (get_float_list prompt count w) as [[e|values] w'].
  - destruct H as [-> _]. left. eexists. reflexivity.
  - right. eexists _, _. reflexivity.
Qed.

Lemma main_result (w : world) :
  exists r w', main float_of_string strip w = (r, w') /\ interactive_ending r.
Proof.
  unfold interactive_ending, Stock.main.
  unfold io_bind at 1.
  destruct (input "請輸入股票代碼: " w) as [[e|stock_id] w0] eqn:Hin.
  { unfold input in Hin. destruct (stdin w); [|discriminate Hin].
    injection Hin as <- <-. eexists _, _. split; [reflexivity | tauto]. }
  unfold io_bind at 1.
  destruct (get_float_list_result "輸入近5年 EPS" 5 w0)
    as [[w1 ->]|(eps & w1 & ->)]; [eexists _, _; split; [reflexivity | tauto]|].
  unfold io_bind at 1.
  destruct (get_float_list_result "輸入近4季每股營收" 4 w1)
    as [[w2 ->]|(rev & w2 & ->)]; [eexists _, _; split; [reflexivity | tauto]|].
  unfold io_bind at 1.
  destruct (get_float_list_result "輸入近4季 ROE（%）" 4 w2)
    as [[w3 ->]|(roe & w3 & ->)]; [eexists _, _; split; [reflexivity | tauto]|].
  unfold io_bind at 1.
  destruct (get_float_list_result "輸入近5年毛利率（%）" 5 w3)
    as [[w4 ->]|(gm & w4 & ->)]; [eexists _, _; split; [reflexivity | tauto]|].
  unfold io_bind at 1.
  destruct (read_scalars_result w4) as [[w5 ->]|(o & w5 & ->)];
    [eexists _, _; split; [reflexivity | tauto]|].
  destruct o as [[price bvps]|]; [|eexists _, _; split; [reflexivity | tauto]].
  unfold truediv. destruct (bvps =? 0)%float; cbv beta iota.
  - unfold Py.raise, io_raise. eexists _, _. split; [reflexivity | tauto].
  - unfold Py.ret. cbv beta iota. rewrite report_shape.
    eexists _, _. split; [reflexivity | tauto].
Qed.

(** On every input, a run of the interactive [main] ends in one of three
    ways: it returns, or the input ends too early ([EOFError]), or the
    book value is zero ([ZeroDivisionError]).  No [ValueError] leaves
    [main]: each is caught, by the retry loop or by the handler of the two
    scalars. *)
Theorem interactive_main_endings :
  forall w : world, interactive_ending (main float_of_string strip w).1.
Proof.
  intros w. destruct (main_result w) as (r & w' & -> & H). exact H.
Qed.

End InteractiveShape.

Lemma get_float_list_count_below_one_witness :
  0 <= 0
  /\ Stock.get_float_list Samples.float_of_decimal Samples.strip_blanks "輸入近5年 EPS" 0
       (Stock.World ["1,2"; ""] [])
     = (inl EOFError,
        Stock.World []
          [ Stock.Prompt "輸入近5年 EPS（用逗號分隔，預期 0 筆）: ";
            Stock.Print "輸入格式錯誤，請重新輸入。";
            Stock.Prompt "輸入近5年 EPS（用逗號分隔，預期 0 筆）: ";
            Stock.Print "輸入格式錯誤，請重新輸入。";
            Stock.Prompt "輸入近5年 EPS（用逗號分隔，預期 0 筆）: " ]).
Proof.
  assert (0 <= 0) as H by lia.
  split; [exact H|].
  exact (get_float_list_count_below_one Samples.float_of_decimal Samples.strip_blanks
           "輸入近5年 EPS" 0 (Stock.World ["1,2"; ""] []) H).
Defined.

(** ** Windows of zero *)

Section ZeroWindows.

Import Screener.

Lemma len_zero_nil {A} (l : list A) : len l = 0 -> l = [].
Proof. unfold len. destruct l; [reflexivity | simpl; lia]. Qed.

(** With both windows at zero a successful fetch returns four empty
    histories, which pass their criteria vacuously: when the book value is
    not zero the run ends normally and the verdict is decided by the
    price-to-book ratio alone. *)
Theorem zero_windows_verdict :
  forall (yf_Ticker : string -> ticker) (stock_id : string) (d : gmap string value),
    fetch_financials yf_Ticker stock_id 0 0 = inr d ->
    exists price bvps,
      d = snapshot [] [] [] [] price bvps
      /\ ((bvps =? 0)%float = false ->
          main yf_Ticker (Args stock_id 0 0)
          = (display_results stock_id
               [ ("近5年 EPS > 1", true); ("近4季每股營收 > 1.5", true);
                 ("股價淨值比 < 1.5", lt (price / bvps) 1.5);
                 ("近4季 ROE > 5%", true); ("近5年毛利率 > 10%", true) ],
             Exit 0)).
Proof.
  intros yf_Ticker stock_id d Hfetch. pose proof Hfetch as Hd.
  apply fetch_financials_inr in Hd.
  destruct Hd as (price & bvps & eps & rev & roe & gm & _ & _ & He & Hr & Ho & Hg & ->).
  assert (0 <= 0) as H0 by lia.
  apply (eps_history_length _ _ _ H0), len_zero_nil in He.
  apply (revenue_history_length _ _ _ H0) in Hr. destruct Hr as [_ Hr].
  apply len_zero_nil in Hr.
  apply (roe_history_length _ _ _ _ H0), len_zero_nil in Ho.
  apply (gross_margin_history_length _ _ _ H0), len_zero_nil in Hg.
  subst eps rev roe gm.
  exists price, bvps. split; [reflexivity|].
  intros Hz. unfold main. cbn [Screener.stock_id Screener.years_eps Screener.quarters_rev].
  rewrite Hfetch. unfold st_bind. rewrite calculate_snapshot.
  unfold truediv. rewrite Hz. simpl. rewrite apply_derived. reflexivity.
Qed.

(** The full ticker with both windows at zero: price 100 over book value
    80 is a ratio of 1.25, and the stock is recommended. *)
Lemma zero_windows_verdict_witness :
  fetch_financials (Samples.only Samples.full_ticker) "2330" 0 0
  = inr (snapshot [] [] [] [] 100 80)
  /\ exists price bvps,
      snapshot [] [] [] [] 100 80 = snapshot [] [] [] [] price bvps
      /\ ((bvps =? 0)%float = false ->
          main (Samples.only Samples.full_ticker) (Args "2330" 0 0)
          = (display_results "2330"
               [ ("近5年 EPS > 1", true); ("近4季每股營收 > 1.5", true);
                 ("股價淨值比 < 1.5", lt (price / bvps) 1.5);
                 ("近4季 ROE > 5%", true); ("近5年毛利率 > 10%", true) ],
             Exit 0)).
Proof.
  assert (fetch_financials (Samples.only Samples.full_ticker) "2330" 0 0
          = inr (snapshot [] [] [] [] 100 80)) as Hfetch by (vm_compute; reflexivity).
  split; [exact Hfetch|].
  exact (zero_windows_verdict (Samples.only Samples.full_ticker) "2330" _ Hfetch).
Defined.

End ZeroWindows.
